(** * MPU gyro/accelerometer driver: detection, revision, latch, raw reads

    Shallow embedding of [src/main/drivers/accgyro_mpu.c].

    The C file talks to the outside through a handful of functions that
    are declared elsewhere (the I2C bus, the SPI chip drivers, [delay],
    [failureMode], the client's update callback).  They are gathered in
    a [Platform] record of oracles over an abstract [World]; the driver
    functions are written in a small state monad whose state holds the
    two device objects, the world and the list of external calls made so
    far.  [mpuIntExtiInit] and [mpuGyroInit] only configure the
    interrupt line through the IO and EXTI drivers and are left out. *)

From Stdlib Require Import ZArith List Bool Lia.
From Stdlib Require Import Strings.Byte.
Import ListNotations.
Local Open Scope Z_scope.

(* ================================================================== *)
(** ** Machine integers and buffers *)

(** Value of a [uint8_t] buffer cell. *)
Definition u8 (b : byte) : Z := Z.of_N (Byte.to_N b).

(** Conversion to [uint8_t] (assignment to a [uint8_t] object). *)
Definition to_uint8 (v : Z) : Z := v mod 256.

(** Conversion to [int16_t]: the value is reduced modulo 2^16 into
    [-32768, 32767]. *)
Definition to_int16 (v : Z) : Z := (v + 32768) mod 65536 - 32768.

(** [data[i]] for a buffer whose contents after a bus call are [data].
    Cells the bus did not deliver read as zero. *)
Definition cell (data : list byte) (i : nat) : Z := u8 (nth i data x00).

(** [int16_t v[XYZ_AXIS_COUNT]], indexed by [X], [Y], [Z]. *)
Record int16x3 := { atX : Z; atY : Z; atZ : Z }.

Definition set_atX (v : Z) (r : int16x3) := {| atX := v; atY := atY r; atZ := atZ r |}.
Definition set_atY (v : Z) (r : int16x3) := {| atX := atX r; atY := v; atZ := atZ r |}.
Definition set_atZ (v : Z) (r : int16x3) := {| atX := atX r; atY := atY r; atZ := v |}.

(* ================================================================== *)
(** ** Types of the driver *)

(** Modelled from the spec: the enumeration [mpuSensor_e] is declared in
    a header that is not part of the sources at hand.  It has the
    members this file assigns, and the member for an undetected device
    (the spec's [Unknown]). *)
Inductive mpuSensor_e :=
| MPU_NONE
| MPU_3050
| MPU_60x0
| MPU_60x0_SPI
| MPU_65xx_I2C
| MPU_65xx_SPI
| MPU_9250_SPI
| ICM_20608_SPI
| ICM_20689_SPI.

Inductive mpu6050Resolution_e :=
| MPU_HALF_RESOLUTION
| MPU_FULL_RESOLUTION.

Inductive failureMode_e :=
| FAILURE_ACC_INCOMPATIBLE.

(** Values a register-read function pointer takes in this file. *)
Inductive mpuReadRegisterFunc :=
| ptr_mpuReadRegisterI2C
| ptr_mpu6000ReadRegister
| ptr_mpu6500ReadRegister
| ptr_mpu9250ReadRegister
| ptr_mpu9250SlowReadRegister
| ptr_icm20608ReadRegister
| ptr_icm20689ReadRegister.

(** Values a register-write function pointer takes in this file. *)
Inductive mpuWriteRegisterFunc :=
| ptr_mpuWriteRegisterI2C
| ptr_mpu6000WriteRegister
| ptr_mpu6500WriteRegister
| ptr_mpu9250WriteRegister
| ptr_verifympu9250WriteRegister
| ptr_icm20608WriteRegister
| ptr_icm20689WriteRegister.

Inductive mpuResetFnPtr :=
| ptr_mpu9250ResetGyro.

(** A client update callback, named by a handle; what it does is given
    by the platform. *)
Definition sensorGyroUpdateFuncPtr := nat.

Record mpuConfiguration_t := {
  gyroReadXRegister : Z;
  readFn : option mpuReadRegisterFunc;
  slowreadFn : option mpuReadRegisterFunc;
  verifywriteFn : option mpuWriteRegisterFunc;
  writeFn : option mpuWriteRegisterFunc;
  resetFn : option mpuResetFnPtr
}.

Record mpuDetectionResult_t := {
  sensor : mpuSensor_e;
  resolution : mpu6050Resolution_e
}.

Record gyroDev_t := {
  mpuConfiguration : mpuConfiguration_t;
  mpuDetectionResult : mpuDetectionResult_t;
  dataReady : bool;
  update : option sensorGyroUpdateFuncPtr;
  gyroADCRaw : int16x3
}.

Record accDev_t := {
  acc_mpuConfiguration : mpuConfiguration_t;
  ADCRaw : int16x3
}.

(** *** Field updates *)

Definition cfg_set_gyroReadXRegister (v : Z) (c : mpuConfiguration_t) :=
  {| gyroReadXRegister := v; readFn := readFn c; slowreadFn := slowreadFn c;
     verifywriteFn := verifywriteFn c; writeFn := writeFn c;
     resetFn := resetFn c |}.

Definition cfg_set_readFn (v : mpuReadRegisterFunc) (c : mpuConfiguration_t) :=
  {| gyroReadXRegister := gyroReadXRegister c; readFn := Some v;
     slowreadFn := slowreadFn c; verifywriteFn := verifywriteFn c;
     writeFn := writeFn c; resetFn := resetFn c |}.

Definition cfg_set_slowreadFn (v : mpuReadRegisterFunc) (c : mpuConfiguration_t) :=
  {| gyroReadXRegister := gyroReadXRegister c; readFn := readFn c;
     slowreadFn := Some v; verifywriteFn := verifywriteFn c;
     writeFn := writeFn c; resetFn := resetFn c |}.

Definition cfg_set_verifywriteFn (v : mpuWriteRegisterFunc) (c : mpuConfiguration_t) :=
  {| gyroReadXRegister := gyroReadXRegister c; readFn := readFn c;
     slowreadFn := slowreadFn c; verifywriteFn := Some v;
     writeFn := writeFn c; resetFn := resetFn c |}.

Definition cfg_set_writeFn (v : mpuWriteRegisterFunc) (c : mpuConfiguration_t) :=
  {| gyroReadXRegister := gyroReadXRegister c; readFn := readFn c;
     slowreadFn := slowreadFn c; verifywriteFn := verifywriteFn c;
     writeFn := Some v; resetFn := resetFn c |}.

Definition cfg_set_resetFn (v : mpuResetFnPtr) (c : mpuConfiguration_t) :=
  {| gyroReadXRegister := gyroReadXRegister c; readFn := readFn c;
     slowreadFn := slowreadFn c; verifywriteFn := verifywriteFn c;
     writeFn := writeFn c; resetFn := Some v |}.

Definition res_set_sensor (v : mpuSensor_e) (r : mpuDetectionResult_t) :=
  {| sensor := v; resolution := resolution r |}.

Definition res_set_resolution (v : mpu6050Resolution_e) (r : mpuDetectionResult_t) :=
  {| sensor := sensor r; resolution := v |}.

Definition gyro_upd_configuration (f : mpuConfiguration_t -> mpuConfiguration_t)
    (g : gyroDev_t) :=
  {| mpuConfiguration := f (mpuConfiguration g);
     mpuDetectionResult := mpuDetectionResult g;
     dataReady := dataReady g; update := update g;
     gyroADCRaw := gyroADCRaw g |}.

Definition gyro_upd_detectionResult (f : mpuDetectionResult_t -> mpuDetectionResult_t)
    (g : gyroDev_t) :=
  {| mpuConfiguration := mpuConfiguration g;
     mpuDetectionResult := f (mpuDetectionResult g);
     dataReady := dataReady g; update := update g;
     gyroADCRaw := gyroADCRaw g |}.

Definition gyro_set_dataReady (v : bool) (g : gyroDev_t) :=
  {| mpuConfiguration := mpuConfiguration g;
     mpuDetectionResult := mpuDetectionResult g;
     dataReady := v; update := update g;
     gyroADCRaw := gyroADCRaw g |}.

Definition gyro_set_update (v : option sensorGyroUpdateFuncPtr) (g : gyroDev_t) :=
  {| mpuConfiguration := mpuConfiguration g;
     mpuDetectionResult := mpuDetectionResult g;
     dataReady := dataReady g; update := v;
     gyroADCRaw := gyroADCRaw g |}.

Definition gyro_upd_gyroADCRaw (f : int16x3 -> int16x3) (g : gyroDev_t) :=
  {| mpuConfiguration := mpuConfiguration g;
     mpuDetectionResult := mpuDetectionResult g;
     dataReady := dataReady g; update := update g;
     gyroADCRaw := f (gyroADCRaw g) |}.

Definition acc_upd_ADCRaw (f : int16x3 -> int16x3) (a : accDev_t) :=
  {| acc_mpuConfiguration := acc_mpuConfiguration a; ADCRaw := f (ADCRaw a) |}.

(* ================================================================== *)
(** ** The platform *)

(** Register addresses the file takes from the chip headers. *)
Record mpuRegisters := {
  MPU_RA_XA_OFFS_H : Z;
  MPU_RA_PRODUCT_ID : Z;
  MPU_RA_WHO_AM_I : Z;
  MPU_RA_WHO_AM_I_LEGACY : Z;
  MPU_RA_GYRO_XOUT_H : Z;
  MPU_RA_ACCEL_XOUT_H : Z;
  MPU3050_GYRO_OUT : Z
}.

(** The preprocessor symbols that select code in this file. *)
Record buildConfig := {
  USE_I2C : bool;
  USE_SPI : bool;
  USE_GYRO_SPI_MPU6000 : bool;
  USE_GYRO_SPI_MPU6500 : bool;
  USE_GYRO_SPI_MPU9250 : bool;
  USE_GYRO_SPI_ICM20608 : bool;
  USE_GYRO_SPI_ICM20689 : bool
}.

(** The SPI detection routines, in the order the file tries them. *)
Inductive spiProbe :=
| mpu6000SpiDetect
| mpu6500SpiDetect
| mpu9250SpiDetect
| icm20608SpiDetect
| icm20689SpiDetect.

(** External calls, as they are made. *)
Inductive event :=
| EvDelay (ms : Z)
| EvI2cRead (addr reg len : Z)
| EvSpiRead (f : mpuReadRegisterFunc) (reg len : Z)
| EvSpiDetect (p : spiProbe)
| EvUpdate (cb : sensorGyroUpdateFuncPtr).

(** What the functions defined elsewhere do.  A read returns its
    acknowledgement and the contents of the caller's buffer after the
    call. *)
Record Platform (World : Type) := {
  regs : mpuRegisters;
  build : buildConfig;
  delay_fn : Z -> World -> World;
  i2cRead : Z -> Z -> Z -> World -> bool * list byte * World;
  spiRead : mpuReadRegisterFunc -> Z -> Z -> World -> bool * list byte * World;
  spiDetect : spiProbe -> World -> bool * World;
  clientUpdate : sensorGyroUpdateFuncPtr -> gyroDev_t -> World -> gyroDev_t * World
}.

Arguments regs {World} _.
Arguments build {World} _.
Arguments delay_fn {World} _ _ _.
Arguments i2cRead {World} _ _ _ _ _.
Arguments spiRead {World} _ _ _ _ _.
Arguments spiDetect {World} _ _ _.
Arguments clientUpdate {World} _ _ _ _.

(* ================================================================== *)
(** ** State and monad *)

(** The two device objects, the file-scope objects that the ICM20608
    branch of the SPI detection names without [gyro->], the world and
    the external calls made so far (oldest first). *)
Record machine (World : Type) := {
  gyro : gyroDev_t;
  acc : accDev_t;
  glob_mpuDetectionResult : mpuDetectionResult_t;
  glob_mpuConfiguration : mpuConfiguration_t;
  world : World;
  trace : list event
}.

Arguments gyro {World} _.
Arguments acc {World} _.
Arguments glob_mpuDetectionResult {World} _.
Arguments glob_mpuConfiguration {World} _.
Arguments world {World} _.
Arguments trace {World} _.

(** Why a run stopped before returning to its caller. *)
Inductive halt :=
| FailureMode (m : failureMode_e)
| NullCall.

Inductive outcome (S A : Type) :=
| Done (a : A) (s : S)
| Halted (h : halt) (s : S).

Arguments Done {S A} _ _.
Arguments Halted {S A} _ _.

(** State reached by a run, however it ended. *)
Definition final {S A} (o : outcome S A) : S :=
  match o with Done _ s => s | Halted _ s => s end.

Definition M (World A : Type) : Type := machine World -> outcome (machine World) A.

Definition ret {World A} (a : A) : M World A := fun s => Done a s.

Definition bind {World A B} (c : M World A) (k : A -> M World B) : M World B :=
  fun s => match c s with
           | Done a s' => k a s'
           | Halted h s' => Halted h s'
           end.

Declare Scope drv_scope.
Delimit Scope drv_scope with drv.
Notation "x <- c ;; k" := (bind c (fun x => k))
  (at level 100, c at next level, right associativity) : drv_scope.
Notation "' p <- c ;; k" := (bind c (fun x => let p := x in k))
  (at level 100, p pattern, c at next level, right associativity) : drv_scope.
Notation "c ;; k" := (bind c (fun _ => k))
  (at level 100, right associativity) : drv_scope.
Local Open Scope drv_scope.

(** *** Updates of the machine state *)

Definition upd_gyro {World} (f : gyroDev_t -> gyroDev_t) (s : machine World) :=
  {| gyro := f (gyro s); acc := acc s;
     glob_mpuDetectionResult := glob_mpuDetectionResult s;
     glob_mpuConfiguration := glob_mpuConfiguration s;
     world := world s; trace := trace s |}.

Definition upd_acc {World} (f : accDev_t -> accDev_t) (s : machine World) :=
  {| gyro := gyro s; acc := f (acc s);
     glob_mpuDetectionResult := glob_mpuDetectionResult s;
     glob_mpuConfiguration := glob_mpuConfiguration s;
     world := world s; trace := trace s |}.

Definition upd_globResult {World}
    (f : mpuDetectionResult_t -> mpuDetectionResult_t) (s : machine World) :=
  {| gyro := gyro s; acc := acc s;
     glob_mpuDetectionResult := f (glob_mpuDetectionResult s);
     glob_mpuConfiguration := glob_mpuConfiguration s;
     world := world s; trace := trace s |}.

Definition upd_globConfiguration {World}
    (f : mpuConfiguration_t -> mpuConfiguration_t) (s : machine World) :=
  {| gyro := gyro s; acc := acc s;
     glob_mpuDetectionResult := glob_mpuDetectionResult s;
     glob_mpuConfiguration := f (glob_mpuConfiguration s);
     world := world s; trace := trace s |}.

(** The world after an external call, with the call recorded. *)
Definition advance {World} (w : World) (e : event) (s : machine World) :=
  {| gyro := gyro s; acc := acc s;
     glob_mpuDetectionResult := glob_mpuDetectionResult s;
     glob_mpuConfiguration := glob_mpuConfiguration s;
     world := w; trace := trace s ++ [e] |}.

Section Driver.

Context {World : Type}.
Variable P : Platform World.

Definition getGyro : M World gyroDev_t := fun s => Done (gyro s) s.

Definition modifyGyro (f : gyroDev_t -> gyroDev_t) : M World unit :=
  fun s => Done tt (upd_gyro f s).

Definition getAcc : M World accDev_t := fun s => Done (acc s) s.

Definition modifyAcc (f : accDev_t -> accDev_t) : M World unit :=
  fun s => Done tt (upd_acc f s).

Definition modifyGlobResult (f : mpuDetectionResult_t -> mpuDetectionResult_t)
  : M World unit :=
  fun s => Done tt (upd_globResult f s).

Definition modifyGlobConfiguration (f : mpuConfiguration_t -> mpuConfiguration_t)
  : M World unit :=
  fun s => Done tt (upd_globConfiguration f s).

(** An external call that leaves the devices alone: the world moves on
    and the call is recorded. *)
Definition external {A} (e : event) (f : World -> A * World) : M World A :=
  fun s => let (a, w) := f (world s) in Done a (advance w e s).

(** Modelled from the spec: [failureMode] is defined outside this file;
    it is the fatal-failure escalation, which halts normal operation, so
    the run stops at the call. *)
Definition failureMode (m : failureMode_e) : M World unit :=
  fun s => Halted (FailureMode m) s.

Definition delay (ms : Z) : M World unit :=
  external (EvDelay ms) (fun w => (tt, delay_fn P ms w)).

(* ================================================================== *)
(** ** The functions of the file *)

Definition MPU_ADDRESS : Z := 0x68.

Definition MPU6500_WHO_AM_I_CONST : Z := 0x70.
Definition MPUx0x0_WHO_AM_I_CONST : Z := 0x68.

Definition MPU_INQUIRY_MASK : Z := 0x7E.

Definition mpuReadRegisterI2C (reg length : Z) : M World (bool * list byte) :=
  external (EvI2cRead MPU_ADDRESS reg length)
           (fun w => i2cRead P MPU_ADDRESS reg length w).

(** What a call through a register-read function pointer reaches: the
    I2C read of this file, or one of the SPI drivers' reads. *)
Definition readOracle (f : mpuReadRegisterFunc) (reg length : Z) (w : World)
  : bool * list byte * World :=
  match f with
  | ptr_mpuReadRegisterI2C => i2cRead P MPU_ADDRESS reg length w
  | f' => spiRead P f' reg length w
  end.

Definition readEvent (f : mpuReadRegisterFunc) (reg length : Z) : event :=
  match f with
  | ptr_mpuReadRegisterI2C => EvI2cRead MPU_ADDRESS reg length
  | f' => EvSpiRead f' reg length
  end.

(** A call through a register-read function pointer. *)
Definition callReadFn (f : option mpuReadRegisterFunc) (reg length : Z)
  : M World (bool * list byte) :=
  match f with
  | None => fun s => Halted NullCall s
  | Some ptr_mpuReadRegisterI2C => mpuReadRegisterI2C reg length
  | Some f' => external (EvSpiRead f' reg length)
                        (fun w => spiRead P f' reg length w)
  end.

Definition mpu6050FindRevision : M World unit :=
  g <- getGyro ;;
  '(ack, readBuffer) <- callReadFn (readFn (mpuConfiguration g))
                                   (MPU_RA_XA_OFFS_H (regs P)) 6 ;;
  let revision :=
    to_uint8 (Z.lor (Z.lor (Z.shiftl (Z.land (cell readBuffer 5) 0x01) 2)
                           (Z.shiftl (Z.land (cell readBuffer 3) 0x01) 1))
                    (Z.land (cell readBuffer 1) 0x01)) in
  if negb (revision =? 0) then
    if revision =? 1 then
      modifyGyro (gyro_upd_detectionResult (res_set_resolution MPU_HALF_RESOLUTION))
    else if revision =? 2 then
      modifyGyro (gyro_upd_detectionResult (res_set_resolution MPU_FULL_RESOLUTION))
    else if (revision =? 3) || (revision =? 7) then
      modifyGyro (gyro_upd_detectionResult (res_set_resolution MPU_FULL_RESOLUTION))
    else
      failureMode FAILURE_ACC_INCOMPATIBLE
  else
    g <- getGyro ;;
    '(ack, productId) <- callReadFn (readFn (mpuConfiguration g))
                                    (MPU_RA_PRODUCT_ID (regs P)) 1 ;;
    let revision := to_uint8 (Z.land (cell productId 0) 0x0F) in
    if revision =? 0 then
      failureMode FAILURE_ACC_INCOMPATIBLE
    else if revision =? 4 then
      modifyGyro (gyro_upd_detectionResult (res_set_resolution MPU_HALF_RESOLUTION))
    else
      modifyGyro (gyro_upd_detectionResult (res_set_resolution MPU_FULL_RESOLUTION)).

(** A call of the client's update callback: it is handed the device,
    and may change it and the world. *)
Definition callUpdate (cb : sensorGyroUpdateFuncPtr) : M World unit :=
  fun s => let (g, w) := clientUpdate P cb (gyro s) (world s) in
           Done tt (advance w (EvUpdate cb) (upd_gyro (fun _ => g) s)).

(** The interrupt service routine.  [gyro] is the device that contains
    the callback record the handler is entered with. *)
Definition mpuIntExtiHandler : M World unit :=
  modifyGyro (gyro_set_dataReady true) ;;
  g <- getGyro ;;
  match update g with
  | Some cb => callUpdate cb
  | None => ret tt
  end.

Definition mpuAccRead : M World bool :=
  a <- getAcc ;;
  '(ack, data) <- callReadFn (readFn (acc_mpuConfiguration a))
                             (MPU_RA_ACCEL_XOUT_H (regs P)) 6 ;;
  if negb ack then
    ret false
  else
    modifyAcc (acc_upd_ADCRaw
      (set_atX (to_int16 (Z.lor (Z.shiftl (cell data 0) 8) (cell data 1))))) ;;
    modifyAcc (acc_upd_ADCRaw
      (set_atY (to_int16 (Z.lor (Z.shiftl (cell data 2) 8) (cell data 3))))) ;;
    modifyAcc (acc_upd_ADCRaw
      (set_atZ (to_int16 (Z.lor (Z.shiftl (cell data 4) 8) (cell data 5))))) ;;
    ret true.

Definition mpuGyroSetIsrUpdate (updateFn : option sensorGyroUpdateFuncPtr)
  : M World unit :=
  modifyGyro (gyro_set_update updateFn).

Definition mpuGyroRead : M World bool :=
  g <- getGyro ;;
  '(ack, data) <- callReadFn (readFn (mpuConfiguration g))
                             (gyroReadXRegister (mpuConfiguration g)) 6 ;;
  if negb ack then
    ret false
  else
    modifyGyro (gyro_upd_gyroADCRaw
      (set_atX (to_int16 (Z.lor (Z.shiftl (cell data 0) 8) (cell data 1))))) ;;
    modifyGyro (gyro_upd_gyroADCRaw
      (set_atY (to_int16 (Z.lor (Z.shiftl (cell data 2) 8) (cell data 3))))) ;;
    modifyGyro (gyro_upd_gyroADCRaw
      (set_atZ (to_int16 (Z.lor (Z.shiftl (cell data 4) 8) (cell data 5))))) ;;
    ret true.

Definition mpuCheckDataReady : M World bool :=
  g <- getGyro ;;
  if dataReady g then
    modifyGyro (gyro_set_dataReady false) ;;
    ret true
  else
    ret false.

(** One [#ifdef]-guarded block of the SPI detection: when the symbol is
    defined the routine is called, and if it claims the device the
    block's assignments are made and [true] is returned. *)
Definition spiBlock (defined : bool) (p : spiProbe) (claim : M World unit)
    (rest : M World bool) : M World bool :=
  if defined then
    detected <- external (EvSpiDetect p) (fun w => spiDetect P p w) ;;
    if (detected : bool) then claim ;; ret true else rest
  else rest.

Definition detectSPISensorsAndUpdateDetectionResult : M World bool :=
  spiBlock (USE_GYRO_SPI_MPU6000 (build P)) mpu6000SpiDetect
    (modifyGyro (gyro_upd_detectionResult (res_set_sensor MPU_60x0_SPI)) ;;
     modifyGyro (gyro_upd_configuration
                   (cfg_set_gyroReadXRegister (MPU_RA_GYRO_XOUT_H (regs P)))) ;;
     modifyGyro (gyro_upd_configuration (cfg_set_readFn ptr_mpu6000ReadRegister)) ;;
     modifyGyro (gyro_upd_configuration (cfg_set_writeFn ptr_mpu6000WriteRegister)))
  (spiBlock (USE_GYRO_SPI_MPU6500 (build P)) mpu6500SpiDetect
    (modifyGyro (gyro_upd_detectionResult (res_set_sensor MPU_65xx_SPI)) ;;
     modifyGyro (gyro_upd_configuration
                   (cfg_set_gyroReadXRegister (MPU_RA_GYRO_XOUT_H (regs P)))) ;;
     modifyGyro (gyro_upd_configuration (cfg_set_readFn ptr_mpu6500ReadRegister)) ;;
     modifyGyro (gyro_upd_configuration (cfg_set_writeFn ptr_mpu6500WriteRegister)))
  (spiBlock (USE_GYRO_SPI_MPU9250 (build P)) mpu9250SpiDetect
    (modifyGyro (gyro_upd_detectionResult (res_set_sensor MPU_9250_SPI)) ;;
     modifyGyro (gyro_upd_configuration
                   (cfg_set_gyroReadXRegister (MPU_RA_GYRO_XOUT_H (regs P)))) ;;
     modifyGyro (gyro_upd_configuration (cfg_set_readFn ptr_mpu9250ReadRegister)) ;;
     modifyGyro (gyro_upd_configuration (cfg_set_slowreadFn ptr_mpu9250SlowReadRegister)) ;;
     modifyGyro (gyro_upd_configuration
                   (cfg_set_verifywriteFn ptr_verifympu9250WriteRegister)) ;;
     modifyGyro (gyro_upd_configuration (cfg_set_writeFn ptr_mpu9250WriteRegister)) ;;
     modifyGyro (gyro_upd_configuration (cfg_set_resetFn ptr_mpu9250ResetGyro)))
  (spiBlock (USE_GYRO_SPI_ICM20608 (build P)) icm20608SpiDetect
    (modifyGlobResult (res_set_sensor ICM_20608_SPI) ;;
     modifyGlobConfiguration
       (cfg_set_gyroReadXRegister (MPU_RA_GYRO_XOUT_H (regs P))) ;;
     modifyGlobConfiguration (cfg_set_readFn ptr_icm20608ReadRegister) ;;
     modifyGlobConfiguration (cfg_set_writeFn ptr_icm20608WriteRegister))
  (spiBlock (USE_GYRO_SPI_ICM20689 (build P)) icm20689SpiDetect
    (modifyGyro (gyro_upd_detectionResult (res_set_sensor ICM_20689_SPI)) ;;
     modifyGyro (gyro_upd_configuration
                   (cfg_set_gyroReadXRegister (MPU_RA_GYRO_XOUT_H (regs P)))) ;;
     modifyGyro (gyro_upd_configuration (cfg_set_readFn ptr_icm20689ReadRegister)) ;;
     modifyGyro (gyro_upd_configuration (cfg_set_writeFn ptr_icm20689WriteRegister)))
  (ret false))))).

Definition mpuDetect : M World unit :=
  (* MPU datasheet specifies 30ms. *)
  delay 35 ;;
  '(ack, sig) <- (if USE_I2C (build P) then
                    '(ack, buf) <- mpuReadRegisterI2C (MPU_RA_WHO_AM_I (regs P)) 1 ;;
                    ret (ack, cell buf 0)
                  else
                    ret (false, 0)) ;;
  if (ack : bool) then
    modifyGyro (gyro_upd_configuration (cfg_set_readFn ptr_mpuReadRegisterI2C)) ;;
    modifyGyro (gyro_upd_configuration (cfg_set_writeFn ptr_mpuWriteRegisterI2C)) ;;
    modifyGyro (gyro_upd_configuration
                  (cfg_set_gyroReadXRegister (MPU_RA_GYRO_XOUT_H (regs P)))) ;;
    (* If an MPU3050 is connected sig will contain 0. *)
    '(ack, buf) <- mpuReadRegisterI2C (MPU_RA_WHO_AM_I_LEGACY (regs P)) 1 ;;
    let inquiryResult := to_uint8 (Z.land (cell buf 0) MPU_INQUIRY_MASK) in
    if (ack : bool) && (inquiryResult =? MPUx0x0_WHO_AM_I_CONST) then
      modifyGyro (gyro_upd_detectionResult (res_set_sensor MPU_3050)) ;;
      modifyGyro (gyro_upd_configuration
                    (cfg_set_gyroReadXRegister (MPU3050_GYRO_OUT (regs P))))
    else
      let sig := to_uint8 (Z.land sig MPU_INQUIRY_MASK) in
      if sig =? MPUx0x0_WHO_AM_I_CONST then
        modifyGyro (gyro_upd_detectionResult (res_set_sensor MPU_60x0)) ;;
        mpu6050FindRevision
      else if sig =? MPU6500_WHO_AM_I_CONST then
        modifyGyro (gyro_upd_detectionResult (res_set_sensor MPU_65xx_I2C))
      else
        ret tt
  else
    if USE_SPI (build P) then
      detectedSpiSensor <- detectSPISensorsAndUpdateDetectionResult ;;
      ret tt
    else
      ret tt.

End Driver.

Arguments MPU_ADDRESS : simpl never.

(* ================================================================== *)
(** ** Runs of the data-ready latch *)

(** What can happen to the latch: the interrupt fires, or the polling
    loop asks. *)
Inductive latchOp :=
| Edge
| Poll.

(** The handler and the poll, interleaved as [ops] says; the result is
    what the polls returned, in order. *)
Fixpoint latchRun {World} (P : Platform World) (ops : list latchOp)
  : M World (list bool) :=
  match ops with
  | [] => ret []
  | Edge :: rest => mpuIntExtiHandler P ;; latchRun P rest
  | Poll :: rest =>
      b <- mpuCheckDataReady ;;
      bs <- latchRun P rest ;;
      ret (b :: bs)
  end.

(** The latch as the design describes it: two states, [true] for Ready
    and [false] for Idle; an edge makes it Ready, a poll reports the
    state and makes it Idle. *)
Fixpoint spec_latch (ready : bool) (ops : list latchOp) : list bool :=
  match ops with
  | [] => []
  | Edge :: rest => spec_latch true rest
  | Poll :: rest => ready :: spec_latch false rest
  end.

(** The state of that latch after [ops]. *)
Fixpoint spec_latchState (ready : bool) (ops : list latchOp) : bool :=
  match ops with
  | [] => ready
  | Edge :: rest => spec_latchState true rest
  | Poll :: rest => spec_latchState false rest
  end.

(** No callback meddles with the latch: either none is installed, or
    the platform's callbacks return the latch as they found it. *)
Definition latchLeftAlone {World} (P : Platform World) (s : machine World) : Prop :=
  update (gyro s) = None \/
  (forall cb g w, dataReady (fst (clientUpdate P cb g w)) = dataReady g).

(* ================================================================== *)
(** ** The revision rules as the design states them *)

Inductive verdict :=
| Resolution (r : mpu6050Resolution_e)
| Unsupported
| Fallback.

(** Bit 2 is the low bit of byte 5, bit 1 the low bit of byte 3, bit 0
    the low bit of byte 1. *)
Definition spec_revisionCode (burst : list byte) : Z :=
  4 * Z.b2z (Z.testbit (cell burst 5) 0)
  + 2 * Z.b2z (Z.testbit (cell burst 3) 0)
  + Z.b2z (Z.testbit (cell burst 1) 0).

Definition spec_classifyCode (code : Z) : verdict :=
  if code =? 0 then Fallback
  else if code =? 1 then Resolution MPU_HALF_RESOLUTION
  else if (code =? 2) || (code =? 3) || (code =? 7) then Resolution MPU_FULL_RESOLUTION
  else Unsupported.

(** The low nibble of the product-identifier byte. *)
Definition spec_nibble (productId : list byte) : Z := (cell productId 0) mod 16.

Definition spec_classifyNibble (nibble : Z) : verdict :=
  if nibble =? 0 then Unsupported
  else if nibble =? 4 then Resolution MPU_HALF_RESOLUTION
  else Resolution MPU_FULL_RESOLUTION.

(** A signed 16-bit value sent high byte first. *)
Definition spec_int16_be (hi lo : Z) : Z :=
  let u := 256 * hi + lo in
  if u <? 32768 then u else u - 65536.

(** The three axes of a 6-byte burst: X from bytes 0..1, Y from 2..3,
    Z from 4..5. *)
Definition spec_decode (data : list byte) : int16x3 :=
  {| atX := spec_int16_be (cell data 0) (cell data 1);
     atY := spec_int16_be (cell data 2) (cell data 3);
     atZ := spec_int16_be (cell data 4) (cell data 5) |}.

(* ================================================================== *)
(** ** Platforms derived from a platform *)

(** The same platform, except that every register read reports the
    acknowledgement [a] chooses; buffers and the world are as before. *)
Definition withAck {World} (a : mpuReadRegisterFunc -> Z -> Z -> World -> bool)
    (P : Platform World) : Platform World :=
  {| regs := regs P;
     build := build P;
     delay_fn := delay_fn P;
     i2cRead := fun addr reg len w =>
       let '(_, data, w') := i2cRead P addr reg len w in
       (a ptr_mpuReadRegisterI2C reg len w, data, w');
     spiRead := fun f reg len w =>
       let '(_, data, w') := spiRead P f reg len w in
       (a f reg len w, data, w');
     spiDetect := spiDetect P;
     clientUpdate := clientUpdate P |}.

(* ================================================================== *)
(** ** The SPI probes of a build *)

(** The detection routines compiled in, in the order they are tried. *)
Definition enabledProbes (b : buildConfig) : list spiProbe :=
  (if USE_GYRO_SPI_MPU6000 b then [mpu6000SpiDetect] else []) ++
  (if USE_GYRO_SPI_MPU6500 b then [mpu6500SpiDetect] else []) ++
  (if USE_GYRO_SPI_MPU9250 b then [mpu9250SpiDetect] else []) ++
  (if USE_GYRO_SPI_ICM20608 b then [icm20608SpiDetect] else []) ++
  (if USE_GYRO_SPI_ICM20689 b then [icm20689SpiDetect] else []).

(** Every probe of the list, tried in turn, declines. *)
Fixpoint allDecline {World} (P : Platform World) (ps : list spiProbe) (w : World)
  : bool :=
  match ps with
  | [] => true
  | p :: rest => let (claimed, w') := spiDetect P p w in
                 negb claimed && allDecline P rest w'
  end.

(** The world once every probe of the list has been tried. *)
Fixpoint worldAfterProbes {World} (P : Platform World) (ps : list spiProbe) (w : World)
  : World :=
  match ps with
  | [] => w
  | p :: rest => worldAfterProbes P rest (snd (spiDetect P p w))
  end.

(* ================================================================== *)
(** ** States of a detection run *)

(** What [mpuDetect] installs once the identity probe on I2C is
    acknowledged. *)
Definition installPrimary {World} (P : Platform World) (g : gyroDev_t) : gyroDev_t :=
  gyro_upd_configuration (cfg_set_gyroReadXRegister (MPU_RA_GYRO_XOUT_H (regs P)))
    (gyro_upd_configuration (cfg_set_writeFn ptr_mpuWriteRegisterI2C)
       (gyro_upd_configuration (cfg_set_readFn ptr_mpuReadRegisterI2C) g)).

(** The external calls up to and including the read of the legacy
    identity register. *)
Definition probeCalls {World} (P : Platform World) : list event :=
  [EvDelay 35;
   EvI2cRead MPU_ADDRESS (MPU_RA_WHO_AM_I (regs P)) 1;
   EvI2cRead MPU_ADDRESS (MPU_RA_WHO_AM_I_LEGACY (regs P)) 1].

(** The state after both identity reads, [w2] being the world the
    second read leaves. *)
Definition afterProbes {World} (P : Platform World) (s : machine World) (w2 : World)
  : machine World :=
  {| gyro := installPrimary P (gyro s); acc := acc s;
     glob_mpuDetectionResult := glob_mpuDetectionResult s;
     glob_mpuConfiguration := glob_mpuConfiguration s;
     world := w2; trace := trace s ++ probeCalls P |}.

(** The reading of the legacy rule that goes by the primary identity
    byte: whenever that byte, masked, is the legacy constant, the device
    comes out as the MPU-3050 with the legacy gyro register and no
    revision burst is read. *)
Definition legacyByPrimaryByte {World} (P : Platform World) (s : machine World) : Prop :=
  forall (sigbuf : list byte) (w1 : World),
    USE_I2C (build P) = true ->
    i2cRead P MPU_ADDRESS (MPU_RA_WHO_AM_I (regs P)) 1 (delay_fn P 35 (world s))
      = (true, sigbuf, w1) ->
    Z.land (cell sigbuf 0) MPU_INQUIRY_MASK = MPUx0x0_WHO_AM_I_CONST ->
    let s' := final (mpuDetect P s) in
    sensor (mpuDetectionResult (gyro s')) = MPU_3050 /\
    gyroReadXRegister (mpuConfiguration (gyro s')) = MPU3050_GYRO_OUT (regs P) /\
    ~ In (EvI2cRead MPU_ADDRESS (MPU_RA_XA_OFFS_H (regs P)) 6) (trace s').

(* ================================================================== *)
(** ** What the interrupt may touch *)

(** Dispatch table, variant, resolution and samples of [g'] are those
    of [g]. *)
Definition sameFrame (g g' : gyroDev_t) : Prop :=
  mpuConfiguration g' = mpuConfiguration g /\
  mpuDetectionResult g' = mpuDetectionResult g /\
  gyroADCRaw g' = gyroADCRaw g.

(** A run of the interrupt handler from [s] leaves the dispatch table,
    the variant, the resolution and the samples of both devices as they
    were. *)
Definition handlerFrame {World} (P : Platform World) (s : machine World) : Prop :=
  sameFrame (gyro s) (gyro (final (mpuIntExtiHandler P s))) /\
  acc (final (mpuIntExtiHandler P s)) = acc s.

(* ================================================================== *)
(** ** A scripted platform

    A bench stand-in for the hardware: register reads and SPI probes are
    answered from two queues, whatever register is asked for. *)

Module Bench.

Record script := {
  reads : list (bool * list byte);
  probes : list bool
}.

Definition popRead (w : script) : bool * list byte * script :=
  match reads w with
  | [] => (false, [], w)
  | (ack, data) :: rest => (ack, data, {| reads := rest; probes := probes w |})
  end.

Definition popProbe (w : script) : bool * script :=
  match probes w with
  | [] => (false, w)
  | claimed :: rest => (claimed, {| reads := reads w; probes := rest |})
  end.

(** Register addresses of the MPU-60x0 and MPU-3050 register maps. *)
Definition registers : mpuRegisters :=
  {| MPU_RA_XA_OFFS_H := 0x06;
     MPU_RA_PRODUCT_ID := 0x0C;
     MPU_RA_WHO_AM_I := 0x75;
     MPU_RA_WHO_AM_I_LEGACY := 0x00;
     MPU_RA_GYRO_XOUT_H := 0x43;
     MPU_RA_ACCEL_XOUT_H := 0x3B;
     MPU3050_GYRO_OUT := 0x1D |}.

Definition allOn : buildConfig :=
  {| USE_I2C := true; USE_SPI := true;
     USE_GYRO_SPI_MPU6000 := true; USE_GYRO_SPI_MPU6500 := true;
     USE_GYRO_SPI_MPU9250 := true; USE_GYRO_SPI_ICM20608 := true;
     USE_GYRO_SPI_ICM20689 := true |}.

(** Client callbacks of the bench: callback 0 does nothing; callback 1
    stores a sample in the device it is handed; any other clears the
    latch. *)
Definition benchUpdate (cb : sensorGyroUpdateFuncPtr) (g : gyroDev_t) (w : script)
  : gyroDev_t * script :=
  match cb with
  | O => (g, w)
  | S O => (gyro_upd_gyroADCRaw (fun _ => {| atX := 1; atY := 2; atZ := 3 |}) g, w)
  | _ => (gyro_set_dataReady false g, w)
  end.

Definition platform : Platform script :=
  {| regs := registers;
     build := allOn;
     delay_fn := fun _ w => w;
     i2cRead := fun _ _ _ w => popRead w;
     spiRead := fun _ _ _ w => popRead w;
     spiDetect := fun _ w => popProbe w;
     clientUpdate := benchUpdate |}.

Definition noConfiguration : mpuConfiguration_t :=
  {| gyroReadXRegister := 0; readFn := None; slowreadFn := None;
     verifywriteFn := None; writeFn := None; resetFn := None |}.

(** A device as the bootstrap hands it over: nothing detected, latch
    idle, no callback, samples zero. *)
Definition freshGyro : gyroDev_t :=
  {| mpuConfiguration := noConfiguration;
     mpuDetectionResult := {| sensor := MPU_NONE; resolution := MPU_HALF_RESOLUTION |};
     dataReady := false;
     update := None;
     gyroADCRaw := {| atX := 0; atY := 0; atZ := 0 |} |}.

Definition freshAcc : accDev_t :=
  {| acc_mpuConfiguration := noConfiguration;
     ADCRaw := {| atX := 0; atY := 0; atZ := 0 |} |}.

Definition boot (w : script) : machine script :=
  {| gyro := freshGyro; acc := freshAcc;
     glob_mpuDetectionResult := {| sensor := MPU_NONE; resolution := MPU_HALF_RESOLUTION |};
     glob_mpuConfiguration := noConfiguration;
     world := w; trace := [] |}.

(** A device detected on I2C, with samples from an earlier read. *)
Definition i2cConfiguration : mpuConfiguration_t :=
  {| gyroReadXRegister := 0x43; readFn := Some ptr_mpuReadRegisterI2C;
     slowreadFn := None; verifywriteFn := None;
     writeFn := Some ptr_mpuWriteRegisterI2C; resetFn := None |}.

Definition running (w : script) : machine script :=
  {| gyro := {| mpuConfiguration := i2cConfiguration;
                mpuDetectionResult := {| sensor := MPU_60x0;
                                         resolution := MPU_FULL_RESOLUTION |};
                dataReady := false; update := None;
                gyroADCRaw := {| atX := 10; atY := -20; atZ := 30 |} |};
     acc := {| acc_mpuConfiguration := i2cConfiguration;
               ADCRaw := {| atX := -1; atY := 2; atZ := 4096 |} |};
     glob_mpuDetectionResult := {| sensor := MPU_NONE; resolution := MPU_HALF_RESOLUTION |};
     glob_mpuConfiguration := noConfiguration;
     world := w; trace := [] |}.

(** A world with nothing left to answer. *)
Definition quiet : script := {| reads := []; probes := [] |}.

(** A revision burst whose bytes 1, 3, 5 have low bits 0, 1, 0. *)
Definition codeTwoBurst : list byte := [x00; x00; x00; x01; x00; x00].

Definition revisionWorld : script :=
  {| reads := [(true, codeTwoBurst)]; probes := [] |}.

(** A sample burst: X = -2, Y = 1, Z = -32768. *)
Definition sampleBurst : list byte := [xff; xfe; x00; x01; x80; x00].

Definition sampleWorld : script :=
  {| reads := [(true, sampleBurst)]; probes := [] |}.

(** The same bytes on the wire, but the read is not acknowledged. *)
Definition nackWorld : script :=
  {| reads := [(false, sampleBurst)]; probes := [] |}.

(** The running device with client callback [cb] installed. *)
Definition withCallback (cb : sensorGyroUpdateFuncPtr) : machine script :=
  upd_gyro (gyro_set_update (Some cb)) (running quiet).

(** The identity register answers 0x68, the legacy register does not
    answer, the revision burst carries code 2. *)
Definition sixAxisWorld : script :=
  {| reads := [(true, [x68]); (false, [x00]); (true, codeTwoBurst)]; probes := [] |}.

(** Both identity registers answer; the legacy one with 0x69, which is
    0x68 under the inquiry mask. *)
Definition legacyWorld : script :=
  {| reads := [(true, [x00]); (true, [x69])]; probes := [] |}.

(** The identity register answers 0x12, which is no chip this file
    knows; the legacy register does not answer. *)
Definition strangerWorld : script :=
  {| reads := [(true, [x12]); (false, [x00])]; probes := [] |}.

(** Nothing answers on I2C and all five SPI probes decline. *)
Definition silentWorld : script :=
  {| reads := [(false, [x00])]; probes := [false; false; false; false; false] |}.

End Bench.

(* ================================================================== *)
(** ** The SPI detection, probe by probe *)

(** The assignments of the block of probe [p], made when the probe
    claims the device.  The ICM20608 block names [mpuDetectionResult]
    and [mpuConfiguration] without [gyro->]; its assignments go to the
    file-scope objects and the device is not written. *)
Definition spiClaimed {World} (P : Platform World) (p : spiProbe) (s : machine World)
  : machine World :=
  match p with
  | mpu6000SpiDetect =>
      upd_gyro (gyro_upd_configuration (cfg_set_writeFn ptr_mpu6000WriteRegister))
     (upd_gyro (gyro_upd_configuration (cfg_set_readFn ptr_mpu6000ReadRegister))
     (upd_gyro (gyro_upd_configuration
                  (cfg_set_gyroReadXRegister (MPU_RA_GYRO_XOUT_H (regs P))))
     (upd_gyro (gyro_upd_detectionResult (res_set_sensor MPU_60x0_SPI)) s)))
  | mpu6500SpiDetect =>
      upd_gyro (gyro_upd_configuration (cfg_set_writeFn ptr_mpu6500WriteRegister))
     (upd_gyro (gyro_upd_configuration (cfg_set_readFn ptr_mpu6500ReadRegister))
     (upd_gyro (gyro_upd_configuration
                  (cfg_set_gyroReadXRegister (MPU_RA_GYRO_XOUT_H (regs P))))
     (upd_gyro (gyro_upd_detectionResult (res_set_sensor MPU_65xx_SPI)) s)))
  | mpu9250SpiDetect =>
      upd_gyro (gyro_upd_configuration (cfg_set_resetFn ptr_mpu9250ResetGyro))
     (upd_gyro (gyro_upd_configuration (cfg_set_writeFn ptr_mpu9250WriteRegister))
     (upd_gyro (gyro_upd_configuration
                  (cfg_set_verifywriteFn ptr_verifympu9250WriteRegister))
     (upd_gyro (gyro_upd_configuration (cfg_set_slowreadFn ptr_mpu9250SlowReadRegister))
     (upd_gyro (gyro_upd_configuration (cfg_set_readFn ptr_mpu9250ReadRegister))
     (upd_gyro (gyro_upd_configuration
                  (cfg_set_gyroReadXRegister (MPU_RA_GYRO_XOUT_H (regs P))))
     (upd_gyro (gyro_upd_detectionResult (res_set_sensor MPU_9250_SPI)) s))))))
  | icm20608SpiDetect =>
      upd_globConfiguration (cfg_set_writeFn ptr_icm20608WriteRegister)
     (upd_globConfiguration (cfg_set_readFn ptr_icm20608ReadRegister)
     (upd_globConfiguration (cfg_set_gyroReadXRegister (MPU_RA_GYRO_XOUT_H (regs P)))
     (upd_globResult (res_set_sensor ICM_20608_SPI) s)))
  | icm20689SpiDetect =>
      upd_gyro (gyro_upd_configuration (cfg_set_writeFn ptr_icm20689WriteRegister))
     (upd_gyro (gyro_upd_configuration (cfg_set_readFn ptr_icm20689ReadRegister))
     (upd_gyro (gyro_upd_configuration
                  (cfg_set_gyroReadXRegister (MPU_RA_GYRO_XOUT_H (regs P))))
     (upd_gyro (gyro_upd_detectionResult (res_set_sensor ICM_20689_SPI)) s)))
  end.

(** The probes of [ps] tried in turn until one claims the device: the
    answer, and the state the scan leaves. *)
Fixpoint spiScan {World} (P : Platform World) (ps : list spiProbe) (s : machine World)
  : bool * machine World :=
  match ps with
  | [] => (false, s)
  | p :: rest =>
      let (claimed, w) := spiDetect P p (world s) in
      if claimed then (true, spiClaimed P p (advance w (EvSpiDetect p) s))
      else spiScan P rest (advance w (EvSpiDetect p) s)
  end.

(** The variant each SPI probe stands for. *)
Definition spiVariant (p : spiProbe) : mpuSensor_e :=
  match p with
  | mpu6000SpiDetect => MPU_60x0_SPI
  | mpu6500SpiDetect => MPU_65xx_SPI
  | mpu9250SpiDetect => MPU_9250_SPI
  | icm20608SpiDetect => ICM_20608_SPI
  | icm20689SpiDetect => ICM_20689_SPI
  end.

(** The read function each SPI probe goes with. *)
Definition spiReadFn (p : spiProbe) : mpuReadRegisterFunc :=
  match p with
  | mpu6000SpiDetect => ptr_mpu6000ReadRegister
  | mpu6500SpiDetect => ptr_mpu6500ReadRegister
  | mpu9250SpiDetect => ptr_mpu9250ReadRegister
  | icm20608SpiDetect => ptr_icm20608ReadRegister
  | icm20689SpiDetect => ptr_icm20689ReadRegister
  end.

(** The write function each SPI probe goes with. *)
Definition spiWriteFn (p : spiProbe) : mpuWriteRegisterFunc :=
  match p with
  | mpu6000SpiDetect => ptr_mpu6000WriteRegister
  | mpu6500SpiDetect => ptr_mpu6500WriteRegister
  | mpu9250SpiDetect => ptr_mpu9250WriteRegister
  | icm20608SpiDetect => ptr_icm20608WriteRegister
  | icm20689SpiDetect => ptr_icm20689WriteRegister
  end.

(** The state of [mpuDetect] once the settle delay and, where I2C is
    compiled in, the identity read are done. *)
Definition afterIdentity {World} (P : Platform World) (s : machine World)
  : machine World :=
  let s0 := advance (delay_fn P 35 (world s)) (EvDelay 35) s in
  if USE_I2C (build P)
  then advance (snd (i2cRead P MPU_ADDRESS (MPU_RA_WHO_AM_I (regs P)) 1 (world s0)))
               (EvI2cRead MPU_ADDRESS (MPU_RA_WHO_AM_I (regs P)) 1) s0
  else s0.

(** The state once every probe of [ps] has been called and has
    declined. *)
Fixpoint afterDeclines {World} (P : Platform World) (ps : list spiProbe)
    (s : machine World) : machine World :=
  match ps with
  | [] => s
  | p :: rest =>
      afterDeclines P rest (advance (snd (spiDetect P p (world s))) (EvSpiDetect p) s)
  end.

(** The identity probe on I2C is not acknowledged, or I2C is not
    compiled in. *)
Definition primarySilent {World} (P : Platform World) (s : machine World) : Prop :=
  USE_I2C (build P) = true ->
  fst (fst (i2cRead P MPU_ADDRESS (MPU_RA_WHO_AM_I (regs P)) 1
              (delay_fn P 35 (world s)))) = false.

(** What no detection and no revision classification touches: the
    latch, the callback, the samples, the accelerometer device. *)
Definition detectFrame {World} (s s' : machine World) : Prop :=
  dataReady (gyro s') = dataReady (gyro s) /\
  update (gyro s') = update (gyro s) /\
  gyroADCRaw (gyro s') = gyroADCRaw (gyro s) /\
  acc s' = acc s.

(** A bus read is an [EvI2cRead]. *)
Definition isI2cRead (e : event) : bool :=
  match e with EvI2cRead _ _ _ => true | _ => false end.

(** A register read, on either bus. *)
Definition isRegisterRead (e : event) : bool :=
  match e with EvI2cRead _ _ _ | EvSpiRead _ _ _ => true | _ => false end.

(** A probe call is an [EvSpiDetect]. *)
Definition isSpiDetect (e : event) : bool :=
  match e with EvSpiDetect _ => true | _ => false end.

(** A call of a client callback is an [EvUpdate]. *)
Definition isUpdate (e : event) : bool :=
  match e with EvUpdate _ => true | _ => false end.

(* ================================================================== *)
(** ** Counting on latch runs *)

Definition isEdge (op : latchOp) : bool :=
  match op with Edge => true | Poll => false end.

(** How many edges [ops] holds. *)
Definition edges (ops : list latchOp) : nat := length (filter isEdge ops).

(** How many polls of a run answered [true]. *)
Definition trues (bs : list bool) : nat := length (filter (fun b : bool => b) bs).

(* ================================================================== *)
(** ** Samples on the wire *)

(** The byte of value [v mod 256]. *)
Definition byte_of_Z (v : Z) : byte :=
  match Byte.of_N (Z.to_N (v mod 256)) with
  | Some b => b
  | None => x00
  end.

(** A sample as the chip sends it: for each axis the high byte of the
    16-bit two's complement pattern, then the low byte. *)
Definition wire (v : int16x3) : list byte :=
  [byte_of_Z (atX v / 256); byte_of_Z (atX v);
   byte_of_Z (atY v / 256); byte_of_Z (atY v);
   byte_of_Z (atZ v / 256); byte_of_Z (atZ v)].

(** Every axis is an [int16_t] value. *)
Definition int16Sample (v : int16x3) : Prop :=
  -32768 <= atX v < 32768 /\ -32768 <= atY v < 32768 /\ -32768 <= atZ v < 32768.

(* ================================================================== *)
(** ** More bench worlds *)

Module BenchMore.

Import Bench.

(** Nothing answers on I2C; the MPU6000 probe declines and the MPU6500
    probe claims the device. *)
Definition spi6500World : script :=
  {| reads := [(false, [x00])]; probes := [false; true] |}.

(** Nothing answers on I2C; the first three probes decline and the
    ICM20608 probe claims the device. *)
Definition icm20608World : script :=
  {| reads := [(false, [x00])]; probes := [false; false; false; true] |}.

(** The identity register answers 0x70; the legacy register does not
    answer. *)
Definition extendedWorld : script :=
  {| reads := [(true, [x70]); (false, [x00])]; probes := [] |}.

(** A revision burst whose bytes 1, 3, 5 have low bits 0, 0, 1:
    code 4. *)
Definition codeFourBurst : list byte := [x00; x00; x00; x00; x00; x01].

(** The identity register answers 0x68, the legacy register does not
    answer, the revision burst carries code 4. *)
Definition unsupportedWorld : script :=
  {| reads := [(true, [x68]); (false, [x00]); (true, codeFourBurst)]; probes := [] |}.

(** The legacy register answers 0x69; then a sample burst is
    acknowledged. *)
Definition legacyThenSample : script :=
  {| reads := [(true, [x00]); (true, [x69]); (true, sampleBurst)]; probes := [] |}.

(** The running device with callback 0 installed and the latch already
    set. *)
Definition latched : machine script :=
  upd_gyro (gyro_set_dataReady true) (withCallback 0%nat).

End BenchMore.

(* ================================================================== *)
(** * Properties *)

(** ** Arithmetic of bytes and words *)

Lemma u8_range (b : byte) : 0 <= u8 b < 256.
Proof.
  unfold u8. pose proof (Byte.to_N_bounded b). lia.
Qed.

Lemma cell_range (data : list byte) (i : nat) : 0 <= cell data i < 256.
Proof. apply u8_range. Qed.

Lemma land_1_lowbit (a : Z) : Z.land a 1 = Z.b2z (Z.testbit a 0).
Proof.
  change 1 with (Z.ones 1). rewrite Z.land_ones by lia.
  rewrite Z.bit0_mod. reflexivity.
Qed.

Lemma revision_bits (burst : list byte) :
  to_uint8 (Z.lor (Z.lor (Z.shiftl (Z.land (cell burst 5) 1) 2)
                         (Z.shiftl (Z.land (cell burst 3) 1) 1))
                  (Z.land (cell burst 1) 1))
  = spec_revisionCode burst.
Proof.
  unfold spec_revisionCode. rewrite !land_1_lowbit.
  destruct (Z.testbit (cell burst 5) 0), (Z.testbit (cell burst 3) 0),
           (Z.testbit (cell burst 1) 0); reflexivity.
Qed.

Lemma spec_revisionCode_range (burst : list byte) :
  0 <= spec_revisionCode burst < 8.
Proof.
  unfold spec_revisionCode.
  destruct (Z.testbit (cell burst 5) 0), (Z.testbit (cell burst 3) 0),
           (Z.testbit (cell burst 1) 0); simpl; lia.
Qed.

(** The code, bit by bit. *)
Lemma spec_revisionCode_testbit (burst : list byte) :
  Z.testbit (spec_revisionCode burst) 2 = Z.testbit (cell burst 5) 0 /\
  Z.testbit (spec_revisionCode burst) 1 = Z.testbit (cell burst 3) 0 /\
  Z.testbit (spec_revisionCode burst) 0 = Z.testbit (cell burst 1) 0.
Proof.
  unfold spec_revisionCode.
  destruct (Z.testbit (cell burst 5) 0), (Z.testbit (cell burst 3) 0),
           (Z.testbit (cell burst 1) 0); repeat split; reflexivity.
Qed.

Lemma nibble_bits (productId : list byte) :
  to_uint8 (Z.land (cell productId 0) 15) = spec_nibble productId.
Proof.
  unfold spec_nibble, to_uint8.
  change 15 with (Z.ones 4). rewrite Z.land_ones by lia.
  change (2 ^ 4) with 16.
  pose proof (Z.mod_pos_bound (cell productId 0) 16).
  rewrite Z.mod_small; lia.
Qed.

Lemma lor_shiftl_8 (hi lo : Z) :
  0 <= lo < 256 -> Z.lor (Z.shiftl hi 8) lo = 256 * hi + lo.
Proof.
  intros Hlo.
  assert (Hdisj : Z.land (Z.shiftl hi 8) lo = 0).
  { apply Z.bits_inj'. intros n Hn.
    rewrite Z.land_spec, Z.bits_0.
    destruct (Z.lt_ge_cases n 8) as [Hlt | Hge].
    - rewrite Z.shiftl_spec_low by assumption. reflexivity.
    - assert (Z.testbit lo n = false) as ->.
      { destruct (Z.eq_dec lo 0) as [-> | Hnz]; [apply Z.bits_0 |].
        apply Z.bits_above_log2; [lia |].
        apply Z.log2_lt_pow2; [lia |].
        apply Z.lt_le_trans with (2 ^ 8); [simpl; lia |].
        apply Z.pow_le_mono_r; lia. }
      apply andb_false_r. }
  rewrite <- Z.lxor_lor by assumption.
  rewrite <- Z.add_nocarry_lxor by assumption.
  rewrite Z.shiftl_mul_pow2 by lia. change (2 ^ 8) with 256. lia.
Qed.

Lemma int16_big_endian (hi lo : Z) :
  0 <= hi < 256 -> 0 <= lo < 256 ->
  to_int16 (Z.lor (Z.shiftl hi 8) lo) = spec_int16_be hi lo.
Proof.
  intros Hhi Hlo. rewrite lor_shiftl_8 by assumption.
  unfold to_int16, spec_int16_be. cbv zeta.
  destruct (Z.ltb_spec (256 * hi + lo) 32768) as [Hs | Hs].
  - rewrite Z.mod_small; lia.
  - replace (256 * hi + lo + 32768) with ((256 * hi + lo - 32768) + 1 * 65536) by lia.
    rewrite Z.mod_add by lia. rewrite Z.mod_small; lia.
Qed.

Lemma decode_cells (data : list byte) (i j : nat) :
  to_int16 (Z.lor (Z.shiftl (cell data i) 8) (cell data j))
  = spec_int16_be (cell data i) (cell data j).
Proof. apply int16_big_endian; apply cell_range. Qed.

Lemma spec_int16_be_range (hi lo : Z) :
  0 <= hi < 256 -> 0 <= lo < 256 -> -32768 <= spec_int16_be hi lo < 32768.
Proof.
  intros Hhi Hlo. unfold spec_int16_be. cbv zeta.
  destruct (Z.ltb_spec (256 * hi + lo) 32768); lia.
Qed.

(** The rules of the design, value by value. *)
Lemma spec_classifyCode_table :
  map spec_classifyCode [0; 1; 2; 3; 4; 5; 6; 7]
  = [Fallback; Resolution MPU_HALF_RESOLUTION; Resolution MPU_FULL_RESOLUTION;
     Resolution MPU_FULL_RESOLUTION; Unsupported; Unsupported; Unsupported;
     Resolution MPU_FULL_RESOLUTION].
Proof. reflexivity. Qed.

(** ** Steps of the monad *)

Section Steps.

Context {World : Type}.
Variable P : Platform World.

Lemma bind_getGyro {A} (k : gyroDev_t -> M World A) (s : machine World) :
  bind getGyro k s = k (gyro s) s.
Proof. reflexivity. Qed.

Lemma bind_getAcc {A} (k : accDev_t -> M World A) (s : machine World) :
  bind getAcc k s = k (acc s) s.
Proof. reflexivity. Qed.

Lemma bind_modifyGyro {A} (f : gyroDev_t -> gyroDev_t) (k : unit -> M World A)
    (s : machine World) :
  bind (modifyGyro f) k s = k tt (upd_gyro f s).
Proof. reflexivity. Qed.

Lemma external_run {A} (e : event) (f : World -> A * World) (s : machine World) :
  external e f s = Done (fst (f (world s))) (advance (snd (f (world s))) e s).
Proof.
  unfold external. destruct (f (world s)); reflexivity.
Qed.

Lemma callReadFn_run (f : mpuReadRegisterFunc) (reg len : Z) (s : machine World)
    (ack : bool) (data : list byte) (w : World) :
  readOracle P f reg len (world s) = (ack, data, w) ->
  callReadFn P (Some f) reg len s = Done (ack, data) (advance w (readEvent f reg len) s).
Proof.
  intros H. destruct f; simpl in *; unfold mpuReadRegisterI2C;
    rewrite external_run, H; reflexivity.
Qed.

Lemma mpuReadRegisterI2C_run (reg len : Z) (s : machine World)
    (ack : bool) (data : list byte) (w : World) :
  i2cRead P MPU_ADDRESS reg len (world s) = (ack, data, w) ->
  mpuReadRegisterI2C P reg len s
  = Done (ack, data) (advance w (EvI2cRead MPU_ADDRESS reg len) s).
Proof.
  intros H. unfold mpuReadRegisterI2C. rewrite external_run, H. reflexivity.
Qed.

End Steps.

(* ================================================================== *)
(** ** Revision classification *)

(** What a run of [mpu6050FindRevision] comes to, read by read. *)
Lemma mpu6050FindRevision_run {World} (P : Platform World)
    (s : machine World) (f : mpuReadRegisterFunc)
    (ack : bool) (burst : list byte) (w1 : World) :
  readFn (mpuConfiguration (gyro s)) = Some f ->
  readOracle P f (MPU_RA_XA_OFFS_H (regs P)) 6 (world s) = (ack, burst, w1) ->
  let s1 := advance w1 (readEvent f (MPU_RA_XA_OFFS_H (regs P)) 6) s in
  let resolved r := upd_gyro (gyro_upd_detectionResult (res_set_resolution r)) in
  match spec_classifyCode (spec_revisionCode burst) with
  | Resolution r =>
      mpu6050FindRevision P s = Done tt (resolved r s1)
  | Unsupported =>
      mpu6050FindRevision P s = Halted (FailureMode FAILURE_ACC_INCOMPATIBLE) s1
  | Fallback =>
      forall (ack2 : bool) (productId : list byte) (w2 : World),
      readOracle P f (MPU_RA_PRODUCT_ID (regs P)) 1 w1 = (ack2, productId, w2) ->
      let s2 := advance w2 (readEvent f (MPU_RA_PRODUCT_ID (regs P)) 1) s1 in
      match spec_classifyNibble (spec_nibble productId) with
      | Resolution r =>
          mpu6050FindRevision P s = Done tt (resolved r s2)
      | _ =>
          mpu6050FindRevision P s = Halted (FailureMode FAILURE_ACC_INCOMPATIBLE) s2
      end
  end.
Proof.
  intros Hf Hburst s1 resolved.
  unfold mpu6050FindRevision, bind, getGyro.
  rewrite Hf, (callReadFn_run P _ _ _ _ _ _ _ Hburst).
  fold s1. cbv beta iota. rewrite revision_bits.
  pose proof (spec_revisionCode_range burst) as Hrange.
  assert (Hcases : In (spec_revisionCode burst) [1; 2; 3; 4; 5; 6; 7]
                   \/ spec_revisionCode burst = 0) by (simpl; lia).
  destruct Hcases as [Hnz | Hz].
  { repeat (destruct Hnz as [<- | Hnz]; [cbn; reflexivity |]). destruct Hnz. }
  (* code 0: the product identifier decides *)
  rewrite Hz. cbn [spec_classifyCode Z.eqb negb].
  intros ack2 productId w2 Hpid.
  assert (Hf1 : readFn (mpuConfiguration (gyro s1)) = Some f) by exact Hf.
  rewrite Hf1, (callReadFn_run P f _ _ s1 _ _ _ Hpid).
  rewrite nibble_bits. unfold spec_classifyNibble.
  destruct (spec_nibble productId =? 0); [reflexivity |].
  destruct (spec_nibble productId =? 4); reflexivity.
Qed.

(** C1.  [mpu6050FindRevision] reads a 6-byte burst at the revision
    register and forms the code whose bit 2 is the low bit of byte 5,
    bit 1 the low bit of byte 3 and bit 0 the low bit of byte 1.  Code 1
    gives half resolution; codes 2, 3 and 7 give full resolution; the
    other nonzero codes stop in [failureMode].  Code 0 makes it read the
    product-identifier register and take its low nibble: nibble 0 stops
    in [failureMode], nibble 4 gives half resolution, any other nibble
    full resolution. *)
Theorem mpu6050FindRevision_classifies {World} (P : Platform World)
    (s : machine World) (f : mpuReadRegisterFunc)
    (ack : bool) (burst : list byte) (w1 : World) :
  readFn (mpuConfiguration (gyro s)) = Some f ->
  readOracle P f (MPU_RA_XA_OFFS_H (regs P)) 6 (world s) = (ack, burst, w1) ->
  let s1 := advance w1 (readEvent f (MPU_RA_XA_OFFS_H (regs P)) 6) s in
  let resolved r := upd_gyro (gyro_upd_detectionResult (res_set_resolution r)) in
  (0 <= spec_revisionCode burst < 8 /\
   Z.testbit (spec_revisionCode burst) 2 = Z.testbit (cell burst 5) 0 /\
   Z.testbit (spec_revisionCode burst) 1 = Z.testbit (cell burst 3) 0 /\
   Z.testbit (spec_revisionCode burst) 0 = Z.testbit (cell burst 1) 0) /\
  match spec_classifyCode (spec_revisionCode burst) with
  | Resolution r =>
      mpu6050FindRevision P s = Done tt (resolved r s1)
  | Unsupported =>
      mpu6050FindRevision P s = Halted (FailureMode FAILURE_ACC_INCOMPATIBLE) s1
  | Fallback =>
      forall (ack2 : bool) (productId : list byte) (w2 : World),
      readOracle P f (MPU_RA_PRODUCT_ID (regs P)) 1 w1 = (ack2, productId, w2) ->
      let s2 := advance w2 (readEvent f (MPU_RA_PRODUCT_ID (regs P)) 1) s1 in
      match spec_classifyNibble (spec_nibble productId) with
      | Resolution r =>
          mpu6050FindRevision P s = Done tt (resolved r s2)
      | _ =>
          mpu6050FindRevision P s = Halted (FailureMode FAILURE_ACC_INCOMPATIBLE) s2
      end
  end.
Proof.
  intros Hf Hburst s1 resolved. split.
  - split; [apply spec_revisionCode_range | apply spec_revisionCode_testbit].
  - exact (mpu6050FindRevision_run P s f ack burst w1 Hf Hburst).
Qed.

(** A burst whose bytes 1, 3, 5 have low bits 0, 1, 0 carries code 2. *)
Lemma mpu6050FindRevision_classifies_witness :
  spec_revisionCode Bench.codeTwoBurst = 2 /\
  mpu6050FindRevision Bench.platform (Bench.running Bench.revisionWorld)
  = Done tt (upd_gyro (gyro_upd_detectionResult (res_set_resolution MPU_FULL_RESOLUTION))
               (advance Bench.quiet (EvI2cRead MPU_ADDRESS 6 6)
                        (Bench.running Bench.revisionWorld))).
Proof.
  split; [reflexivity |].
  exact (proj2 (mpu6050FindRevision_classifies Bench.platform
                  (Bench.running Bench.revisionWorld)
                  ptr_mpuReadRegisterI2C true Bench.codeTwoBurst Bench.quiet
                  eq_refl eq_refl)).
Defined.

(** C9.  [mpu6050FindRevision] never looks at the acknowledgement of its
    reads: on a platform whose reads report any other acknowledgements
    but deliver the same bytes, it ends in the same way, in the same
    state.  A read that is not acknowledged is therefore not reported;
    the bytes in the buffers alone decide. *)
Theorem mpu6050FindRevision_ignores_ack {World}
    (a : mpuReadRegisterFunc -> Z -> Z -> World -> bool)
    (P : Platform World) (s : machine World) :
  mpu6050FindRevision (withAck a P) s = mpu6050FindRevision P s.
Proof.
  assert (Hread : forall (f : mpuReadRegisterFunc) reg len (t : machine World)
                         (k k' : bool * list byte -> M World unit),
             (forall ack ack' data t', k (ack, data) t' = k' (ack', data) t') ->
             bind (callReadFn (withAck a P) (Some f) reg len) k t
             = bind (callReadFn P (Some f) reg len) k' t).
  { intros f reg len t k k' Hk. unfold bind.
    destruct (readOracle P f reg len (world t)) as [[ack data] w] eqn:E.
    rewrite (callReadFn_run P f reg len t ack data w E).
    rewrite (callReadFn_run (withAck a P) f reg len t
               (a f reg len (world t)) data w).
    - apply Hk.
    - destruct f; simpl in *; rewrite E; reflexivity. }
  unfold mpu6050FindRevision. rewrite !bind_getGyro.
  destruct (readFn (mpuConfiguration (gyro s))) as [f |]; [| reflexivity].
  change (regs (withAck a P)) with (regs P).
  apply Hread. intros ack ack' burst s1. cbv beta iota.
  match goal with |- context [negb ?c] => destruct c end; [| reflexivity].
  cbn [negb]. rewrite !bind_getGyro.
  destruct (readFn (mpuConfiguration (gyro s1))) as [f1 |]; [| reflexivity].
  apply Hread. reflexivity.
Qed.

(* ================================================================== *)
(** ** Raw sample reads *)

(** C6.  When the burst read is not acknowledged, [mpuGyroRead] and
    [mpuAccRead] return [false]; the world has moved on by one bus call,
    and both devices, their sample buffers included, are exactly as they
    were. *)
Theorem failed_read_keeps_samples {World} (P : Platform World) (s : machine World) :
  (forall f data w,
     readFn (mpuConfiguration (gyro s)) = Some f ->
     readOracle P f (gyroReadXRegister (mpuConfiguration (gyro s))) 6 (world s)
       = (false, data, w) ->
     mpuGyroRead P s
       = Done false
           (advance w (readEvent f (gyroReadXRegister (mpuConfiguration (gyro s))) 6) s)
     /\ gyro (final (mpuGyroRead P s)) = gyro s
     /\ gyroADCRaw (gyro (final (mpuGyroRead P s))) = gyroADCRaw (gyro s)) /\
  (forall f data w,
     readFn (acc_mpuConfiguration (acc s)) = Some f ->
     readOracle P f (MPU_RA_ACCEL_XOUT_H (regs P)) 6 (world s) = (false, data, w) ->
     mpuAccRead P s
       = Done false (advance w (readEvent f (MPU_RA_ACCEL_XOUT_H (regs P)) 6) s)
     /\ acc (final (mpuAccRead P s)) = acc s
     /\ ADCRaw (acc (final (mpuAccRead P s))) = ADCRaw (acc s)).
Proof.
  split; intros f data w Hf Hread.
  - assert (Hrun : mpuGyroRead P s
                   = Done false
                       (advance w (readEvent f
                          (gyroReadXRegister (mpuConfiguration (gyro s))) 6) s)).
    { unfold mpuGyroRead. rewrite bind_getGyro. unfold bind.
      rewrite Hf, (callReadFn_run P _ _ _ _ _ _ _ Hread). reflexivity. }
    rewrite Hrun. repeat split.
  - assert (Hrun : mpuAccRead P s
                   = Done false
                       (advance w (readEvent f (MPU_RA_ACCEL_XOUT_H (regs P)) 6) s)).
    { unfold mpuAccRead. rewrite bind_getAcc. unfold bind.
      rewrite Hf, (callReadFn_run P _ _ _ _ _ _ _ Hread). reflexivity. }
    rewrite Hrun. repeat split.
Qed.

(** On the bench: a refused burst leaves the earlier samples
    [(10, -20, 30)] and [(-1, 2, 4096)] in place. *)
Lemma failed_read_keeps_samples_witness :
  (mpuGyroRead Bench.platform (Bench.running Bench.nackWorld)
   = Done false (advance Bench.quiet (EvI2cRead MPU_ADDRESS 0x43 6)
                         (Bench.running Bench.nackWorld))
   /\ gyroADCRaw (gyro (final (mpuGyroRead Bench.platform
                                 (Bench.running Bench.nackWorld))))
      = {| atX := 10; atY := -20; atZ := 30 |})
  /\
  (mpuAccRead Bench.platform (Bench.running Bench.nackWorld)
   = Done false (advance Bench.quiet (EvI2cRead MPU_ADDRESS 0x3B 6)
                         (Bench.running Bench.nackWorld))
   /\ ADCRaw (acc (final (mpuAccRead Bench.platform
                            (Bench.running Bench.nackWorld))))
      = {| atX := -1; atY := 2; atZ := 4096 |}).
Proof.
  destruct (failed_read_keeps_samples Bench.platform (Bench.running Bench.nackWorld))
    as [Hg Ha].
  destruct (Hg ptr_mpuReadRegisterI2C Bench.sampleBurst Bench.quiet eq_refl eq_refl)
    as (Hg1 & _ & Hg2).
  destruct (Ha ptr_mpuReadRegisterI2C Bench.sampleBurst Bench.quiet eq_refl eq_refl)
    as (Ha1 & _ & Ha2).
  split; split; assumption.
Defined.

(** C7.  When the 6-byte burst is acknowledged, [mpuGyroRead] has read
    at the register held in [gyroReadXRegister] and [mpuAccRead] at
    [MPU_RA_ACCEL_XOUT_H]; each stores the three signed 16-bit
    big-endian values of the buffer, X from bytes 0..1, Y from bytes
    2..3, Z from bytes 4..5, and returns [true]. *)
Theorem acked_read_decodes {World} (P : Platform World) (s : machine World) :
  (forall f data w,
     readFn (mpuConfiguration (gyro s)) = Some f ->
     readOracle P f (gyroReadXRegister (mpuConfiguration (gyro s))) 6 (world s)
       = (true, data, w) ->
     mpuGyroRead P s
       = Done true
           (upd_gyro (gyro_upd_gyroADCRaw (fun _ => spec_decode data))
              (advance w (readEvent f
                 (gyroReadXRegister (mpuConfiguration (gyro s))) 6) s))) /\
  (forall f data w,
     readFn (acc_mpuConfiguration (acc s)) = Some f ->
     readOracle P f (MPU_RA_ACCEL_XOUT_H (regs P)) 6 (world s) = (true, data, w) ->
     mpuAccRead P s
       = Done true
           (upd_acc (acc_upd_ADCRaw (fun _ => spec_decode data))
              (advance w (readEvent f (MPU_RA_ACCEL_XOUT_H (regs P)) 6) s))).
Proof.
  split; intros f data w Hf Hread.
  - unfold mpuGyroRead. rewrite bind_getGyro. unfold bind.
    rewrite Hf, (callReadFn_run P _ _ _ _ _ _ _ Hread).
    cbn [negb]. unfold modifyGyro, ret. rewrite !decode_cells. reflexivity.
  - unfold mpuAccRead. rewrite bind_getAcc. unfold bind.
    rewrite Hf, (callReadFn_run P _ _ _ _ _ _ _ Hread).
    cbn [negb]. unfold modifyAcc, ret. rewrite !decode_cells. reflexivity.
Qed.

(** On the bench: the bytes [ff fe 00 01 80 00] decode to
    [(-2, 1, -32768)] for either device. *)
Lemma acked_read_decodes_witness :
  spec_decode Bench.sampleBurst = {| atX := -2; atY := 1; atZ := -32768 |} /\
  mpuGyroRead Bench.platform (Bench.running Bench.sampleWorld)
  = Done true
      (upd_gyro (gyro_upd_gyroADCRaw (fun _ => {| atX := -2; atY := 1; atZ := -32768 |}))
         (advance Bench.quiet (EvI2cRead MPU_ADDRESS 0x43 6)
                  (Bench.running Bench.sampleWorld))) /\
  mpuAccRead Bench.platform (Bench.running Bench.sampleWorld)
  = Done true
      (upd_acc (acc_upd_ADCRaw (fun _ => {| atX := -2; atY := 1; atZ := -32768 |}))
         (advance Bench.quiet (EvI2cRead MPU_ADDRESS 0x3B 6)
                  (Bench.running Bench.sampleWorld))).
Proof.
  destruct (acked_read_decodes Bench.platform (Bench.running Bench.sampleWorld))
    as [Hg Ha].
  split; [reflexivity | split].
  - exact (Hg ptr_mpuReadRegisterI2C Bench.sampleBurst Bench.quiet eq_refl eq_refl).
  - exact (Ha ptr_mpuReadRegisterI2C Bench.sampleBurst Bench.quiet eq_refl eq_refl).
Defined.

(* ================================================================== *)
(** ** The data-ready latch *)

Section Latch.

Context {World : Type}.
Variable P : Platform World.

Lemma mpuCheckDataReady_run (s : machine World) :
  mpuCheckDataReady s
  = if dataReady (gyro s)
    then Done true (upd_gyro (gyro_set_dataReady false) s)
    else Done false s.
Proof.
  unfold mpuCheckDataReady. rewrite bind_getGyro.
  destruct (dataReady (gyro s)); reflexivity.
Qed.

Lemma mpuIntExtiHandler_run (s : machine World) :
  mpuIntExtiHandler P s
  = match update (gyro s) with
    | Some cb => callUpdate P cb (upd_gyro (gyro_set_dataReady true) s)
    | None => Done tt (upd_gyro (gyro_set_dataReady true) s)
    end.
Proof.
  unfold mpuIntExtiHandler. rewrite bind_modifyGyro, bind_getGyro.
  cbn [upd_gyro gyro gyro_set_dataReady update].
  destruct (update (gyro s)); reflexivity.
Qed.

(** The handler always returns. *)
Lemma mpuIntExtiHandler_returns (s : machine World) :
  exists s', mpuIntExtiHandler P s = Done tt s'.
Proof.
  rewrite mpuIntExtiHandler_run.
  destruct (update (gyro s)) as [cb |]; [| eexists; reflexivity].
  unfold callUpdate. destruct (clientUpdate P cb _ _). eexists; reflexivity.
Qed.

(** When no callback meddles with the latch, the handler returns with
    the latch set, and still no callback meddles. *)
Lemma mpuIntExtiHandler_sets (s : machine World) :
  latchLeftAlone P s ->
  exists s', mpuIntExtiHandler P s = Done tt s'
             /\ dataReady (gyro s') = true /\ latchLeftAlone P s'.
Proof.
  intros [Hnone | Hkeep]; rewrite mpuIntExtiHandler_run.
  - rewrite Hnone. eexists. split; [reflexivity |]. split; [reflexivity |].
    left. exact Hnone.
  - destruct (update (gyro s)) as [cb |].
    + unfold callUpdate.
      pose proof (Hkeep cb (gyro (upd_gyro (gyro_set_dataReady true) s))
                        (world (upd_gyro (gyro_set_dataReady true) s))) as Hcb.
      destruct (clientUpdate P cb _ _) as [g w].
      eexists. split; [reflexivity |]. split; [exact Hcb | right; exact Hkeep].
    + eexists. split; [reflexivity |]. split; [reflexivity | right; exact Hkeep].
Qed.



(** The code follows the two-state latch of the design on every
    interleaving of edges and polls. *)
Lemma latchRun_refines_spec (ops : list latchOp) (s : machine World) :
  latchLeftAlone P s ->
  exists s', latchRun P ops s = Done (spec_latch (dataReady (gyro s)) ops) s'
             /\ dataReady (gyro s') = spec_latchState (dataReady (gyro s)) ops
             /\ latchLeftAlone P s'.
Proof.
  revert s. induction ops as [| op ops IH]; intros s Halone.
  - exists s. repeat split; assumption.
  - destruct op; cbn [latchRun spec_latch spec_latchState].
    + destruct (mpuIntExtiHandler_sets s Halone) as (s1 & Hrun & Hset & Halone1).
      unfold bind. rewrite Hrun.
      destruct (IH s1 Halone1) as (s' & Hrest & Hstate & Halone').
      rewrite Hset in Hrest, Hstate. exists s'. repeat split; assumption.
    + unfold bind at 1. rewrite mpuCheckDataReady_run.
      destruct (dataReady (gyro s)) eqn:Hlatch.
      * assert (Halone1 : latchLeftAlone P (upd_gyro (gyro_set_dataReady false) s))
          by exact Halone.
        destruct (IH _ Halone1) as (s' & Hrest & Hstate & Halone').
        unfold bind. rewrite Hrest. exists s'. repeat split; assumption.
      * destruct (IH s Halone) as (s' & Hrest & Hstate & Halone').
        rewrite Hlatch in Hrest, Hstate.
        unfold bind. rewrite Hrest. exists s'. repeat split; assumption.
Qed.

End Latch.






(** C8, as amended.  The handler's own code writes the latch and nothing
    else: it sets the latch and then, if a callback is installed, hands
    the device to it.  Dispatch table, variant, resolution and samples
    are unchanged after the handler whenever no callback is installed or
    the installed callback leaves them as it got them; with no callback
    installed the latch is the only thing that changes. *)
Theorem mpuIntExtiHandler_frame {World} (P : Platform World) (s : machine World) :
  (forall cb, update (gyro s) = Some cb ->
     sameFrame (gyro s)
       (fst (clientUpdate P cb (gyro_set_dataReady true (gyro s)) (world s)))) ->
  handlerFrame P s /\
  mpuIntExtiHandler P s
  = match update (gyro s) with
    | Some cb => callUpdate P cb (upd_gyro (gyro_set_dataReady true) s)
    | None => Done tt (upd_gyro (gyro_set_dataReady true) s)
    end /\
  (update (gyro s) = None ->
   mpuIntExtiHandler P s = Done tt (upd_gyro (gyro_set_dataReady true) s)).
Proof.
  intros Hcb. split; [| split].
  - unfold handlerFrame. rewrite mpuIntExtiHandler_run.
    destruct (update (gyro s)) as [cb |] eqn:Hupd.
    + specialize (Hcb cb eq_refl). unfold callUpdate.
      cbn [upd_gyro gyro world].
      destruct (clientUpdate P cb _ _) as [g w]. split; [exact Hcb | reflexivity].
    + split; [repeat split | reflexivity].
  - apply mpuIntExtiHandler_run.
  - intros Hnone. rewrite mpuIntExtiHandler_run, Hnone. reflexivity.
Qed.

(** On the bench, with the callback that does nothing installed. *)
Lemma mpuIntExtiHandler_frame_witness :
  handlerFrame Bench.platform (Bench.withCallback 0%nat).
Proof.
  refine (proj1 (mpuIntExtiHandler_frame Bench.platform (Bench.withCallback 0%nat) _)).
  intros cb Hcb. injection Hcb as <-. repeat split.
Defined.

(** C8, as stated, fails: a callback is handed the device and may write
    to it.  On the bench, callback 1 stores a sample; after the handler
    the samples are [(1, 2, 3)], not the [(10, -20, 30)] of before. *)
Lemma mpuIntExtiHandler_frame_counterexample :
  gyroADCRaw (gyro (Bench.withCallback 1%nat)) = {| atX := 10; atY := -20; atZ := 30 |} /\
  gyroADCRaw (gyro (final (mpuIntExtiHandler Bench.platform (Bench.withCallback 1%nat))))
    = {| atX := 1; atY := 2; atZ := 3 |} /\
  ~ handlerFrame Bench.platform (Bench.withCallback 1%nat).
Proof.
  split; [reflexivity | split; [reflexivity |]].
  intros [(_ & _ & Hraw) _]. discriminate Hraw.
Qed.

(* ================================================================== *)
(** ** Detection *)

Lemma to_uint8_land (a m : Z) : 0 <= a < 256 -> to_uint8 (Z.land a m) = Z.land a m.
Proof.
  intros Ha. unfold to_uint8. change 256 with (2 ^ 8).
  rewrite <- Z.land_ones by lia.
  rewrite <- Z.land_assoc, (Z.land_comm m), Z.land_assoc.
  rewrite Z.land_ones by lia. rewrite (Z.mod_small a) by (simpl; lia).
  reflexivity.
Qed.

Section Detection.

Context {World : Type}.
Variable P : Platform World.

(** [mpuDetect] once both identity reads on I2C are known. *)
Lemma mpuDetect_primary (s : machine World) (sigbuf : list byte) (w1 : World)
    (ack2 : bool) (inqbuf : list byte) (w2 : World) :
  USE_I2C (build P) = true ->
  i2cRead P MPU_ADDRESS (MPU_RA_WHO_AM_I (regs P)) 1 (delay_fn P 35 (world s))
    = (true, sigbuf, w1) ->
  i2cRead P MPU_ADDRESS (MPU_RA_WHO_AM_I_LEGACY (regs P)) 1 w1 = (ack2, inqbuf, w2) ->
  mpuDetect P s
  = if ack2 && (Z.land (cell inqbuf 0) MPU_INQUIRY_MASK =? MPUx0x0_WHO_AM_I_CONST)
    then Done tt
           (upd_gyro (gyro_upd_configuration
                        (cfg_set_gyroReadXRegister (MPU3050_GYRO_OUT (regs P))))
              (upd_gyro (gyro_upd_detectionResult (res_set_sensor MPU_3050))
                 (afterProbes P s w2)))
    else if Z.land (cell sigbuf 0) MPU_INQUIRY_MASK =? MPUx0x0_WHO_AM_I_CONST
    then mpu6050FindRevision P
           (upd_gyro (gyro_upd_detectionResult (res_set_sensor MPU_60x0))
              (afterProbes P s w2))
    else if Z.land (cell sigbuf 0) MPU_INQUIRY_MASK =? MPU6500_WHO_AM_I_CONST
    then Done tt
           (upd_gyro (gyro_upd_detectionResult (res_set_sensor MPU_65xx_I2C))
              (afterProbes P s w2))
    else Done tt (afterProbes P s w2).
Proof.
  intros Hi2c Hsig Hinq.
  unfold mpuDetect. rewrite Hi2c.
  unfold bind at 1. unfold delay. rewrite external_run. cbn [fst snd].
  unfold bind at 1. unfold bind at 1.
  rewrite (mpuReadRegisterI2C_run P _ _
             (advance (delay_fn P 35 (world s)) (EvDelay 35) s) _ _ _ Hsig).
  cbv beta iota. unfold ret at 1.
  rewrite !bind_modifyGyro.
  unfold bind at 1.
  match goal with
  | |- context [mpuReadRegisterI2C P ?r ?l ?t] =>
      rewrite (mpuReadRegisterI2C_run P r l t ack2 inqbuf w2 Hinq)
  end.
  cbv beta iota.
  rewrite !to_uint8_land by apply cell_range.
  assert (Hstate :
    advance w2 (EvI2cRead MPU_ADDRESS (MPU_RA_WHO_AM_I_LEGACY (regs P)) 1)
      (upd_gyro (gyro_upd_configuration
                   (cfg_set_gyroReadXRegister (MPU_RA_GYRO_XOUT_H (regs P))))
         (upd_gyro (gyro_upd_configuration (cfg_set_writeFn ptr_mpuWriteRegisterI2C))
            (upd_gyro (gyro_upd_configuration (cfg_set_readFn ptr_mpuReadRegisterI2C))
               (advance w1 (EvI2cRead MPU_ADDRESS (MPU_RA_WHO_AM_I (regs P)) 1)
                  (advance (delay_fn P 35 (world s)) (EvDelay 35) s)))))
    = afterProbes P s w2).
  { unfold afterProbes, advance, upd_gyro, probeCalls. cbn [gyro acc world trace
      glob_mpuDetectionResult glob_mpuConfiguration].
    rewrite <- !app_assoc. reflexivity. }
  rewrite Hstate.
  destruct (ack2 && _); [reflexivity |].
  destruct (_ =? MPUx0x0_WHO_AM_I_CONST); [reflexivity |].
  destruct (_ =? MPU6500_WHO_AM_I_CONST); reflexivity.
Qed.

End Detection.

Section DetectionCases.

Context {World : Type}.
Variable P : Platform World.

(** What [mpu6050FindRevision] leaves alone, and the bus calls it
    makes: one 6-byte burst at the revision register, then at most one
    read of the product identifier. *)
Lemma mpu6050FindRevision_frame (s : machine World) (f : mpuReadRegisterFunc) :
  readFn (mpuConfiguration (gyro s)) = Some f ->
  mpuConfiguration (gyro (final (mpu6050FindRevision P s))) = mpuConfiguration (gyro s) /\
  sensor (mpuDetectionResult (gyro (final (mpu6050FindRevision P s))))
    = sensor (mpuDetectionResult (gyro s)) /\
  exists tail,
    trace (final (mpu6050FindRevision P s))
    = trace s ++ readEvent f (MPU_RA_XA_OFFS_H (regs P)) 6 :: tail /\
    (tail = [] \/ tail = [readEvent f (MPU_RA_PRODUCT_ID (regs P)) 1]).
Proof.
  intros Hf.
  destruct (readOracle P f (MPU_RA_XA_OFFS_H (regs P)) 6 (world s))
    as [[ack burst] w1] eqn:Hburst.
  pose proof (mpu6050FindRevision_run P s f ack burst w1 Hf Hburst) as Hrun.
  cbv zeta in Hrun.
  destruct (spec_classifyCode (spec_revisionCode burst)).
  - rewrite Hrun. repeat split. exists []. split; [reflexivity | left; reflexivity].
  - rewrite Hrun. repeat split. exists []. split; [reflexivity | left; reflexivity].
  - destruct (readOracle P f (MPU_RA_PRODUCT_ID (regs P)) 1 w1)
      as [[ack2 productId] w2] eqn:Hpid.
    specialize (Hrun ack2 productId w2 eq_refl).
    destruct (spec_classifyNibble (spec_nibble productId)); rewrite Hrun;
      (repeat split; eexists; split; [| right; reflexivity]);
      cbn [final trace upd_gyro advance]; rewrite <- app_assoc; reflexivity.
Qed.

Lemma spiBlock_decline (p : spiProbe) (claim : M World unit) (rest : M World bool)
    (s : machine World) (w : World) :
  spiDetect P p (world s) = (false, w) ->
  spiBlock P true p claim rest s = rest (advance w (EvSpiDetect p) s).
Proof.
  intros H. unfold spiBlock, bind. rewrite external_run, H. reflexivity.
Qed.

(** When every compiled-in probe declines, the SPI detection returns
    [false] and has written nothing. *)
Lemma detectSPI_declined (s : machine World) :
  allDecline P (enabledProbes (build P)) (world s) = true ->
  exists s',
    detectSPISensorsAndUpdateDetectionResult P s = Done false s' /\
    gyro s' = gyro s /\ acc s' = acc s /\
    glob_mpuDetectionResult s' = glob_mpuDetectionResult s /\
    glob_mpuConfiguration s' = glob_mpuConfiguration s /\
    world s' = worldAfterProbes P (enabledProbes (build P)) (world s) /\
    trace s' = trace s ++ map EvSpiDetect (enabledProbes (build P)).
Proof.
  unfold detectSPISensorsAndUpdateDetectionResult, enabledProbes.
  assert (Hblock : forall (defined : bool) (p : spiProbe) (claim : M World unit)
                          (rest : M World bool) (ps : list spiProbe),
    (forall t, allDecline P ps (world t) = true ->
       exists t', rest t = Done false t' /\
         gyro t' = gyro t /\ acc t' = acc t /\
         glob_mpuDetectionResult t' = glob_mpuDetectionResult t /\
         glob_mpuConfiguration t' = glob_mpuConfiguration t /\
         world t' = worldAfterProbes P ps (world t) /\
         trace t' = trace t ++ map EvSpiDetect ps) ->
    forall t, allDecline P ((if defined then [p] else []) ++ ps) (world t) = true ->
       exists t', spiBlock P defined p claim rest t = Done false t' /\
         gyro t' = gyro t /\ acc t' = acc t /\
         glob_mpuDetectionResult t' = glob_mpuDetectionResult t /\
         glob_mpuConfiguration t' = glob_mpuConfiguration t /\
         world t' = worldAfterProbes P ((if defined then [p] else []) ++ ps) (world t) /\
         trace t' = trace t ++ map EvSpiDetect ((if defined then [p] else []) ++ ps)).
  { intros defined p claim rest ps Hrest t Hdecl. destruct defined.
    - cbn [app allDecline worldAfterProbes map] in *.
      destruct (spiDetect P p (world t)) as [claimed w] eqn:Hp.
      destruct claimed; [discriminate Hdecl |]. cbn [negb andb snd] in *.
      rewrite (spiBlock_decline p claim rest t w Hp).
      destruct (Hrest (advance w (EvSpiDetect p) t) Hdecl)
        as (t' & Hrun & Hg & Ha & Hgr & Hgc & Hw & Ht).
      exists t'. repeat split; try assumption.
      rewrite Ht. cbn [trace advance]. rewrite <- app_assoc. reflexivity.
    - cbn [app]. exact (Hrest t Hdecl). }
  rewrite <- (app_nil_r (if USE_GYRO_SPI_ICM20689 (build P) then _ else _)).
  revert s. do 5 apply Hblock.
  intros t _. exists t. cbn [map worldAfterProbes]. rewrite app_nil_r. repeat split.
Qed.

End DetectionCases.

(** C2.  When the identity probe on I2C is acknowledged, the legacy
    probe does not make the device an MPU-3050, and the identity byte
    under the inquiry mask is the six-axis constant, [mpuDetect] ends as
    one run of [mpu6050FindRevision] from the state in which the variant
    is [MPU_60x0]; however that run ends, the variant is [MPU_60x0], the
    I2C functions are installed, the gyro burst register is
    [MPU_RA_GYRO_XOUT_H], and exactly one revision burst has been read.
    If that burst carries code 2 the resolution is full. *)
Theorem mpuDetect_six_axis {World} (P : Platform World) (s : machine World)
    (sigbuf : list byte) (w1 : World) (ack2 : bool) (inqbuf : list byte) (w2 : World) :
  USE_I2C (build P) = true ->
  i2cRead P MPU_ADDRESS (MPU_RA_WHO_AM_I (regs P)) 1 (delay_fn P 35 (world s))
    = (true, sigbuf, w1) ->
  i2cRead P MPU_ADDRESS (MPU_RA_WHO_AM_I_LEGACY (regs P)) 1 w1 = (ack2, inqbuf, w2) ->
  ack2 && (Z.land (cell inqbuf 0) MPU_INQUIRY_MASK =? MPUx0x0_WHO_AM_I_CONST) = false ->
  Z.land (cell sigbuf 0) MPU_INQUIRY_MASK = MPUx0x0_WHO_AM_I_CONST ->
  let s3 := upd_gyro (gyro_upd_detectionResult (res_set_sensor MPU_60x0))
              (afterProbes P s w2) in
  let s' := final (mpuDetect P s) in
  mpuDetect P s = mpu6050FindRevision P s3 /\
  sensor (mpuDetectionResult (gyro s')) = MPU_60x0 /\
  gyroReadXRegister (mpuConfiguration (gyro s')) = MPU_RA_GYRO_XOUT_H (regs P) /\
  readFn (mpuConfiguration (gyro s')) = Some ptr_mpuReadRegisterI2C /\
  writeFn (mpuConfiguration (gyro s')) = Some ptr_mpuWriteRegisterI2C /\
  (exists tail,
      trace s' = trace s ++ probeCalls P
                 ++ EvI2cRead MPU_ADDRESS (MPU_RA_XA_OFFS_H (regs P)) 6 :: tail /\
      (tail = [] \/ tail = [EvI2cRead MPU_ADDRESS (MPU_RA_PRODUCT_ID (regs P)) 1])) /\
  (forall (ack3 : bool) (burst : list byte) (w3 : World),
      i2cRead P MPU_ADDRESS (MPU_RA_XA_OFFS_H (regs P)) 6 w2 = (ack3, burst, w3) ->
      spec_revisionCode burst = 2 ->
      mpuDetect P s
      = Done tt
          (upd_gyro (gyro_upd_detectionResult (res_set_resolution MPU_FULL_RESOLUTION))
             (advance w3 (EvI2cRead MPU_ADDRESS (MPU_RA_XA_OFFS_H (regs P)) 6) s3))).
Proof.
  intros Hi2c Hsig Hinq Hlegacy Hsix s3 s'.
  assert (Hrun : mpuDetect P s = mpu6050FindRevision P s3).
  { rewrite (mpuDetect_primary P s sigbuf w1 ack2 inqbuf w2 Hi2c Hsig Hinq).
    rewrite Hlegacy, Hsix. reflexivity. }
  assert (Hf : readFn (mpuConfiguration (gyro s3)) = Some ptr_mpuReadRegisterI2C)
    by reflexivity.
  destruct (mpu6050FindRevision_frame P s3 _ Hf) as (Hcfg & Hsensor & tail & Htrace & Htail).
  subst s'. rewrite Hrun. split; [reflexivity |].
  split; [rewrite Hsensor; reflexivity |].
  rewrite Hcfg. split; [reflexivity |]. split; [reflexivity |]. split; [reflexivity |].
  split.
  - exists tail. split; [| exact Htail].
    rewrite Htrace. cbn [s3 trace upd_gyro afterProbes readEvent].
    rewrite <- app_assoc. reflexivity.
  - intros ack3 burst w3 Hburst Hcode.
    pose proof (mpu6050FindRevision_run P s3 ptr_mpuReadRegisterI2C ack3 burst w3
                  Hf Hburst) as Hrev.
    cbv zeta in Hrev. rewrite Hcode in Hrev. exact Hrev.
Qed.

(** On the bench: identity byte 0x68, a legacy read that is refused,
    and a revision burst with code 2. *)
Lemma mpuDetect_six_axis_witness :
  sensor (mpuDetectionResult
            (gyro (final (mpuDetect Bench.platform (Bench.boot Bench.sixAxisWorld)))))
    = MPU_60x0 /\
  gyroReadXRegister (mpuConfiguration
            (gyro (final (mpuDetect Bench.platform (Bench.boot Bench.sixAxisWorld)))))
    = 0x43 /\
  resolution (mpuDetectionResult
            (gyro (final (mpuDetect Bench.platform (Bench.boot Bench.sixAxisWorld)))))
    = MPU_FULL_RESOLUTION /\
  trace (final (mpuDetect Bench.platform (Bench.boot Bench.sixAxisWorld)))
    = [EvDelay 35; EvI2cRead 0x68 0x75 1; EvI2cRead 0x68 0x00 1; EvI2cRead 0x68 0x06 6].
Proof.
  destruct (mpuDetect_six_axis Bench.platform (Bench.boot Bench.sixAxisWorld)
              [x68]
              {| Bench.reads := [(false, [x00]); (true, Bench.codeTwoBurst)];
                 Bench.probes := [] |}
              false [x00] Bench.revisionWorld
              eq_refl eq_refl eq_refl eq_refl eq_refl)
    as (_ & Hsensor & Hreg & _ & _ & _ & Hfull).
  split; [exact Hsensor |]. split; [exact Hreg |].
  rewrite (Hfull true Bench.codeTwoBurst Bench.quiet eq_refl eq_refl).
  split; reflexivity.
Defined.

(** C3, as amended.  When the identity probe on I2C is acknowledged and
    the separate read of the legacy identity register is acknowledged
    with a byte that is the legacy constant under the inquiry mask,
    [mpuDetect] makes the device an [MPU_3050], sets the gyro burst
    register to [MPU3050_GYRO_OUT] and returns; no revision burst is
    read and the resolution is not touched.  The primary identity byte
    plays no part. *)
Theorem mpuDetect_legacy {World} (P : Platform World) (s : machine World)
    (sigbuf : list byte) (w1 : World) (inqbuf : list byte) (w2 : World) :
  USE_I2C (build P) = true ->
  i2cRead P MPU_ADDRESS (MPU_RA_WHO_AM_I (regs P)) 1 (delay_fn P 35 (world s))
    = (true, sigbuf, w1) ->
  i2cRead P MPU_ADDRESS (MPU_RA_WHO_AM_I_LEGACY (regs P)) 1 w1 = (true, inqbuf, w2) ->
  Z.land (cell inqbuf 0) MPU_INQUIRY_MASK = MPUx0x0_WHO_AM_I_CONST ->
  let s' := upd_gyro (gyro_upd_configuration
                        (cfg_set_gyroReadXRegister (MPU3050_GYRO_OUT (regs P))))
              (upd_gyro (gyro_upd_detectionResult (res_set_sensor MPU_3050))
                 (afterProbes P s w2)) in
  mpuDetect P s = Done tt s' /\
  sensor (mpuDetectionResult (gyro s')) = MPU_3050 /\
  resolution (mpuDetectionResult (gyro s')) = resolution (mpuDetectionResult (gyro s)) /\
  gyroReadXRegister (mpuConfiguration (gyro s')) = MPU3050_GYRO_OUT (regs P) /\
  trace s' = trace s ++ probeCalls P.
Proof.
  intros Hi2c Hsig Hinq Hlegacy s'.
  rewrite (mpuDetect_primary P s sigbuf w1 true inqbuf w2 Hi2c Hsig Hinq).
  rewrite Hlegacy. repeat split.
Qed.

(** On the bench: the legacy register answers 0x69 while the identity
    register answers 0x00. *)
Lemma mpuDetect_legacy_witness :
  sensor (mpuDetectionResult
            (gyro (final (mpuDetect Bench.platform (Bench.boot Bench.legacyWorld)))))
    = MPU_3050 /\
  gyroReadXRegister (mpuConfiguration
            (gyro (final (mpuDetect Bench.platform (Bench.boot Bench.legacyWorld)))))
    = 0x1D /\
  trace (final (mpuDetect Bench.platform (Bench.boot Bench.legacyWorld)))
    = [EvDelay 35; EvI2cRead 0x68 0x75 1; EvI2cRead 0x68 0x00 1].
Proof.
  destruct (mpuDetect_legacy Bench.platform (Bench.boot Bench.legacyWorld)
              [x00] {| Bench.reads := [(true, [x69])]; Bench.probes := [] |}
              [x69] Bench.quiet eq_refl eq_refl eq_refl eq_refl)
    as (Hrun & _).
  rewrite Hrun. repeat split.
Defined.

(** C3, as stated, fails: with the primary identity byte 0x68, which is
    the legacy constant under the mask, and a legacy read that is not
    acknowledged, the device comes out as [MPU_60x0] with the standard
    gyro register, and the revision burst is read. *)
Lemma mpuDetect_legacy_counterexample :
  Z.land (cell [x68] 0) MPU_INQUIRY_MASK = MPUx0x0_WHO_AM_I_CONST /\
  sensor (mpuDetectionResult
            (gyro (final (mpuDetect Bench.platform (Bench.boot Bench.sixAxisWorld)))))
    = MPU_60x0 /\
  ~ legacyByPrimaryByte Bench.platform (Bench.boot Bench.sixAxisWorld).
Proof.
  split; [reflexivity | split; [reflexivity |]].
  intros Hclaim.
  destruct (Hclaim [x68]
              {| Bench.reads := [(false, [x00]); (true, Bench.codeTwoBurst)];
                 Bench.probes := [] |}
              eq_refl eq_refl eq_refl) as (Hsensor & _).
  discriminate Hsensor.
Qed.

(** C10.  When the identity probe on I2C is acknowledged, the legacy
    probe does not make the device an MPU-3050, and the identity byte
    under the inquiry mask is neither the six-axis nor the MPU-6500
    constant, [mpuDetect] returns with the detection result as it found
    it (a variant that was [MPU_NONE] stays [MPU_NONE]), yet with the
    I2C read and write functions and [MPU_RA_GYRO_XOUT_H] installed. *)
Theorem mpuDetect_unrecognised {World} (P : Platform World) (s : machine World)
    (sigbuf : list byte) (w1 : World) (ack2 : bool) (inqbuf : list byte) (w2 : World) :
  USE_I2C (build P) = true ->
  i2cRead P MPU_ADDRESS (MPU_RA_WHO_AM_I (regs P)) 1 (delay_fn P 35 (world s))
    = (true, sigbuf, w1) ->
  i2cRead P MPU_ADDRESS (MPU_RA_WHO_AM_I_LEGACY (regs P)) 1 w1 = (ack2, inqbuf, w2) ->
  ack2 && (Z.land (cell inqbuf 0) MPU_INQUIRY_MASK =? MPUx0x0_WHO_AM_I_CONST) = false ->
  Z.land (cell sigbuf 0) MPU_INQUIRY_MASK <> MPUx0x0_WHO_AM_I_CONST ->
  Z.land (cell sigbuf 0) MPU_INQUIRY_MASK <> MPU6500_WHO_AM_I_CONST ->
  let s' := afterProbes P s w2 in
  mpuDetect P s = Done tt s' /\
  mpuDetectionResult (gyro s') = mpuDetectionResult (gyro s) /\
  (sensor (mpuDetectionResult (gyro s)) = MPU_NONE ->
   sensor (mpuDetectionResult (gyro s')) = MPU_NONE) /\
  readFn (mpuConfiguration (gyro s')) = Some ptr_mpuReadRegisterI2C /\
  writeFn (mpuConfiguration (gyro s')) = Some ptr_mpuWriteRegisterI2C /\
  gyroReadXRegister (mpuConfiguration (gyro s')) = MPU_RA_GYRO_XOUT_H (regs P).
Proof.
  intros Hi2c Hsig Hinq Hlegacy Hsix H65 s'.
  rewrite (mpuDetect_primary P s sigbuf w1 ack2 inqbuf w2 Hi2c Hsig Hinq).
  rewrite Hlegacy.
  apply Z.eqb_neq in Hsix. apply Z.eqb_neq in H65. rewrite Hsix, H65.
  repeat split. intros Hnone. exact Hnone.
Qed.

(** On the bench: identity byte 0x12 and a legacy read that is
    refused. *)
Lemma mpuDetect_unrecognised_witness :
  sensor (mpuDetectionResult
            (gyro (final (mpuDetect Bench.platform (Bench.boot Bench.strangerWorld)))))
    = MPU_NONE /\
  mpuConfiguration
    (gyro (final (mpuDetect Bench.platform (Bench.boot Bench.strangerWorld))))
    = {| gyroReadXRegister := 0x43; readFn := Some ptr_mpuReadRegisterI2C;
         slowreadFn := None; verifywriteFn := None;
         writeFn := Some ptr_mpuWriteRegisterI2C; resetFn := None |}.
Proof.
  destruct (mpuDetect_unrecognised Bench.platform (Bench.boot Bench.strangerWorld)
              [x12] {| Bench.reads := [(false, [x00])]; Bench.probes := [] |}
              false [x00] Bench.quiet eq_refl eq_refl eq_refl eq_refl)
    as (Hrun & _).
  - intros H; discriminate H.
  - intros H; discriminate H.
  - rewrite Hrun. split; reflexivity.
Defined.

(** C4.  When the identity probe on I2C is not acknowledged (or I2C is
    not compiled in) and every compiled-in SPI probe declines,
    [mpuDetect] returns with both devices and the file-scope objects
    exactly as it found them: the variant is still what it was, so
    [MPU_NONE] if the device came in undetected, and no read function,
    write function or gyro burst register has been installed. *)
Theorem mpuDetect_undetected {World} (P : Platform World) (s : machine World) :
  (USE_I2C (build P) = true ->
   fst (fst (i2cRead P MPU_ADDRESS (MPU_RA_WHO_AM_I (regs P)) 1
               (delay_fn P 35 (world s)))) = false) ->
  (USE_SPI (build P) = true ->
   allDecline P (enabledProbes (build P))
     (if USE_I2C (build P)
      then snd (i2cRead P MPU_ADDRESS (MPU_RA_WHO_AM_I (regs P)) 1
                  (delay_fn P 35 (world s)))
      else delay_fn P 35 (world s)) = true) ->
  exists s',
    mpuDetect P s = Done tt s' /\
    gyro s' = gyro s /\ acc s' = acc s /\
    glob_mpuDetectionResult s' = glob_mpuDetectionResult s /\
    glob_mpuConfiguration s' = glob_mpuConfiguration s /\
    (sensor (mpuDetectionResult (gyro s)) = MPU_NONE ->
     sensor (mpuDetectionResult (gyro s')) = MPU_NONE) /\
    mpuConfiguration (gyro s') = mpuConfiguration (gyro s).
Proof.
  intros Hnack Hspi.
  assert (Hprobe : exists t,
    bind (delay P 35)
      (fun _ => if USE_I2C (build P)
                then bind (mpuReadRegisterI2C P (MPU_RA_WHO_AM_I (regs P)) 1)
                          (fun x => let '(ack, buf) := x in ret (ack, cell buf 0))
                else ret (false, 0)) s
    = Done (false, if USE_I2C (build P)
                   then cell (snd (fst (i2cRead P MPU_ADDRESS (MPU_RA_WHO_AM_I (regs P)) 1
                                          (delay_fn P 35 (world s))))) 0
                   else 0) t /\
    gyro t = gyro s /\ acc t = acc s /\
    glob_mpuDetectionResult t = glob_mpuDetectionResult s /\
    glob_mpuConfiguration t = glob_mpuConfiguration s /\
    world t = (if USE_I2C (build P)
               then snd (i2cRead P MPU_ADDRESS (MPU_RA_WHO_AM_I (regs P)) 1
                           (delay_fn P 35 (world s)))
               else delay_fn P 35 (world s))).
  { unfold bind at 1. unfold delay. rewrite external_run. cbn [fst snd].
    destruct (USE_I2C (build P)).
    - specialize (Hnack eq_refl). unfold bind, mpuReadRegisterI2C.
      rewrite external_run. cbn [world advance].
      destruct (i2cRead P MPU_ADDRESS (MPU_RA_WHO_AM_I (regs P)) 1
                  (delay_fn P 35 (world s))) as [[ack buf] w] eqn:Hread.
      cbn [fst snd] in *. subst ack.
      eexists. split; [reflexivity |]. repeat split.
    - eexists. split; [reflexivity |]. repeat split. }
  destruct Hprobe as (t & Hrun & Hg & Ha & Hgr & Hgc & Hw).
  rewrite <- Hw in Hspi.
  assert (Hsplit : forall k : bool * Z -> M World unit,
    bind (delay P 35)
      (fun _ => bind (if USE_I2C (build P)
                      then bind (mpuReadRegisterI2C P (MPU_RA_WHO_AM_I (regs P)) 1)
                                (fun x => let '(ack, buf) := x in ret (ack, cell buf 0))
                      else ret (false, 0)) k) s
    = bind (bind (delay P 35)
              (fun _ => if USE_I2C (build P)
                        then bind (mpuReadRegisterI2C P (MPU_RA_WHO_AM_I (regs P)) 1)
                                  (fun x => let '(ack, buf) := x in ret (ack, cell buf 0))
                        else ret (false, 0))) k s).
  { intros k. unfold bind. destruct (delay P 35 s); reflexivity. }
  unfold mpuDetect. rewrite Hsplit. unfold bind at 1. rewrite Hrun. cbv beta iota.
  destruct (USE_SPI (build P)).
  - destruct (detectSPI_declined P t (Hspi eq_refl))
      as (t' & Hdet & Hg' & Ha' & Hgr' & Hgc' & _).
    unfold bind. rewrite Hdet. exists t'.
    split; [reflexivity |].
    rewrite Hg', Ha', Hgr', Hgc', Hg, Ha, Hgr, Hgc. repeat split.
    intros Hnone; exact Hnone.
  - exists t. split; [reflexivity |].
    rewrite Hg, Ha, Hgr, Hgc. repeat split. intros Hnone; exact Hnone.
Qed.

(** On the bench: nothing answers on I2C and the five SPI probes
    decline. *)
Lemma mpuDetect_undetected_witness :
  gyro (final (mpuDetect Bench.platform (Bench.boot Bench.silentWorld))) = Bench.freshGyro /\
  sensor (mpuDetectionResult
            (gyro (final (mpuDetect Bench.platform (Bench.boot Bench.silentWorld)))))
    = MPU_NONE.
Proof.
  destruct (mpuDetect_undetected Bench.platform (Bench.boot Bench.silentWorld))
    as (s' & Hrun & Hgyro & _).
  - intros _. reflexivity.
  - intros _. reflexivity.
  - rewrite Hrun. cbn [final]. rewrite Hgyro. split; reflexivity.
Defined.

(* ================================================================== *)
(** * More of the driver *)

(** ** The SPI detection as a scan *)

Section SpiScan.

Context {World : Type}.
Variable P : Platform World.

(** The chain of [#ifdef] blocks is a scan of the compiled-in probes in
    their order. *)
Lemma detectSPI_scan (s : machine World) :
  detectSPISensorsAndUpdateDetectionResult P s
  = Done (fst (spiScan P (enabledProbes (build P)) s))
         (snd (spiScan P (enabledProbes (build P)) s)).
Proof.
  unfold detectSPISensorsAndUpdateDetectionResult, enabledProbes.
  assert (Hblock : forall (defined : bool) (p : spiProbe) (claim : M World unit)
                          (rest : M World bool) (ps : list spiProbe),
    (forall t, bind claim (fun _ => ret true) t = Done true (spiClaimed P p t)) ->
    (forall t, rest t = Done (fst (spiScan P ps t)) (snd (spiScan P ps t))) ->
    forall t, spiBlock P defined p claim rest t
              = Done (fst (spiScan P ((if defined then [p] else []) ++ ps) t))
                     (snd (spiScan P ((if defined then [p] else []) ++ ps) t))).
  { intros defined p claim rest ps Hclaim Hrest t. destruct defined.
    - cbn [app spiScan]. unfold spiBlock. unfold bind at 1. rewrite external_run.
      destruct (spiDetect P p (world t)) as [claimed w]. cbn [fst snd].
      destruct claimed; [apply Hclaim | apply Hrest].
    - cbn [app]. apply Hrest. }
  rewrite <- (app_nil_r (if USE_GYRO_SPI_ICM20689 (build P) then _ else _)).
  revert s. do 5 (apply Hblock; [intros t; reflexivity |]).
  intros t. reflexivity.
Qed.

Lemma afterDeclines_frame (ps : list spiProbe) (s : machine World) :
  gyro (afterDeclines P ps s) = gyro s /\
  acc (afterDeclines P ps s) = acc s /\
  glob_mpuDetectionResult (afterDeclines P ps s) = glob_mpuDetectionResult s /\
  glob_mpuConfiguration (afterDeclines P ps s) = glob_mpuConfiguration s /\
  world (afterDeclines P ps s) = worldAfterProbes P ps (world s) /\
  trace (afterDeclines P ps s) = trace s ++ map EvSpiDetect ps.
Proof.
  revert s. induction ps as [| p ps IH]; intros s.
  - cbn [afterDeclines worldAfterProbes map]. rewrite app_nil_r. repeat split.
  - cbn [afterDeclines worldAfterProbes map].
    destruct (IH (advance (snd (spiDetect P p (world s))) (EvSpiDetect p) s))
      as (Hg & Ha & Hr & Hc & Hw & Ht).
    rewrite Hg, Ha, Hr, Hc, Hw, Ht. cbn [gyro acc glob_mpuDetectionResult
      glob_mpuConfiguration world trace advance].
    rewrite <- app_assoc. repeat split.
Qed.

(** Probes that decline are passed over. *)
Lemma spiScan_declines (before rest : list spiProbe) (s : machine World) :
  allDecline P before (world s) = true ->
  spiScan P (before ++ rest) s = spiScan P rest (afterDeclines P before s).
Proof.
  revert s. induction before as [| p before IH]; intros s Hdecl; [reflexivity |].
  cbn [app spiScan allDecline afterDeclines] in *.
  destruct (spiDetect P p (world s)) as [claimed w].
  destruct claimed; [discriminate Hdecl |]. cbn [negb andb snd] in *.
  apply IH. exact Hdecl.
Qed.

(** The answer of a scan: some probe claimed. *)
Lemma spiScan_answer (ps : list spiProbe) (s : machine World) :
  fst (spiScan P ps s) = negb (allDecline P ps (world s)).
Proof.
  revert s. induction ps as [| p ps IH]; intros s; [reflexivity |].
  cbn [spiScan allDecline].
  destruct (spiDetect P p (world s)) as [claimed w].
  destruct claimed; [reflexivity |]. cbn [negb andb]. apply IH.
Qed.

Lemma spiClaimed_frame (p : spiProbe) (s : machine World) :
  detectFrame s (spiClaimed P p s) /\
  world (spiClaimed P p s) = world s /\ trace (spiClaimed P p s) = trace s /\
  resolution (mpuDetectionResult (gyro (spiClaimed P p s)))
    = resolution (mpuDetectionResult (gyro s)).
Proof. destruct p; repeat split. Qed.

(** The calls of a scan are probe calls, a prefix of the list in its
    order; the scan leaves the latch, the callback, the samples, the
    resolution and the accelerometer alone. *)
Lemma spiScan_calls (ps : list spiProbe) (s : machine World) :
  exists tried rest,
    ps = tried ++ rest /\
    trace (snd (spiScan P ps s)) = trace s ++ map EvSpiDetect tried /\
    detectFrame s (snd (spiScan P ps s)) /\
    resolution (mpuDetectionResult (gyro (snd (spiScan P ps s))))
      = resolution (mpuDetectionResult (gyro s)).
Proof.
  revert s. induction ps as [| p ps IH]; intros s.
  - exists [], []. cbn [spiScan snd map app]. rewrite app_nil_r. repeat split.
  - cbn [spiScan]. destruct (spiDetect P p (world s)) as [claimed w].
    destruct claimed.
    + exists [p], ps. cbn [snd].
      destruct (spiClaimed_frame p (advance w (EvSpiDetect p) s))
        as (Hframe & _ & Htrace & Hres).
      rewrite Htrace, Hres. repeat split; apply Hframe.
    + destruct (IH (advance w (EvSpiDetect p) s))
        as (tried & rest & Hsplit & Htrace & Hframe & Hres).
      subst ps. destruct Hframe as (Hlatch & Hupd & Hraw & Hacc).
      exists (p :: tried), rest. rewrite Htrace, Hres.
      cbn [trace advance map app]. rewrite <- app_assoc.
      repeat split; assumption.
Qed.

End SpiScan.

(** ** The two ways through [mpuDetect] *)

Section DetectPaths.

Context {World : Type}.
Variable P : Platform World.

(** Without an acknowledgement on I2C, [mpuDetect] is the settle delay,
    the identity read where I2C is compiled in, and the SPI scan where
    SPI is compiled in. *)
Lemma mpuDetect_silent (s : machine World) :
  primarySilent P s ->
  mpuDetect P s
  = if USE_SPI (build P)
    then Done tt (snd (spiScan P (enabledProbes (build P)) (afterIdentity P s)))
    else Done tt (afterIdentity P s).
Proof.
  intros Hnack. unfold primarySilent in Hnack. unfold mpuDetect, afterIdentity.
  unfold bind at 1. unfold delay. rewrite external_run. cbn [fst snd].
  destruct (USE_I2C (build P)).
  - specialize (Hnack eq_refl). unfold bind at 1. unfold bind at 1.
    unfold mpuReadRegisterI2C. rewrite external_run. cbn [world advance] in *.
    destruct (i2cRead P MPU_ADDRESS (MPU_RA_WHO_AM_I (regs P)) 1
                (delay_fn P 35 (world s))) as [[ack buf] w] eqn:Hread.
    cbn [fst snd] in *. subst ack. cbv beta iota. unfold ret at 1.
    destruct (USE_SPI (build P)); [| reflexivity].
    unfold bind. rewrite detectSPI_scan. reflexivity.
  - unfold bind at 1. unfold ret at 1.
    destruct (USE_SPI (build P)); [| reflexivity].
    unfold bind. rewrite detectSPI_scan. reflexivity.
Qed.

(** Every run of [mpuDetect] goes one of two ways: the identity probe
    is acknowledged and the legacy register is read, or it is not. *)
Lemma mpuDetect_paths (s : machine World) :
  primarySilent P s \/
  exists sigbuf w1 ack2 inqbuf w2,
    USE_I2C (build P) = true /\
    i2cRead P MPU_ADDRESS (MPU_RA_WHO_AM_I (regs P)) 1 (delay_fn P 35 (world s))
      = (true, sigbuf, w1) /\
    i2cRead P MPU_ADDRESS (MPU_RA_WHO_AM_I_LEGACY (regs P)) 1 w1 = (ack2, inqbuf, w2).
Proof.
  unfold primarySilent.
  destruct (USE_I2C (build P)); [| left; intros H; discriminate H].
  destruct (i2cRead P MPU_ADDRESS (MPU_RA_WHO_AM_I (regs P)) 1
              (delay_fn P 35 (world s))) as [[ack sigbuf] w1] eqn:Hsig.
  destruct ack; [| left; intros _; reflexivity].
  destruct (i2cRead P MPU_ADDRESS (MPU_RA_WHO_AM_I_LEGACY (regs P)) 1 w1)
    as [[ack2 inqbuf] w2] eqn:Hinq.
  right. exists sigbuf, w1, ack2, inqbuf, w2. repeat split. exact Hinq.
Qed.

Lemma afterIdentity_frame (s : machine World) :
  gyro (afterIdentity P s) = gyro s /\ acc (afterIdentity P s) = acc s /\
  glob_mpuDetectionResult (afterIdentity P s) = glob_mpuDetectionResult s /\
  glob_mpuConfiguration (afterIdentity P s) = glob_mpuConfiguration s.
Proof.
  unfold afterIdentity. destruct (USE_I2C (build P)); repeat split.
Qed.

Lemma afterIdentity_trace (s : machine World) :
  trace (afterIdentity P s)
  = trace s ++ EvDelay 35 ::
      (if USE_I2C (build P)
       then [EvI2cRead MPU_ADDRESS (MPU_RA_WHO_AM_I (regs P)) 1] else []).
Proof.
  unfold afterIdentity. destruct (USE_I2C (build P)); cbn [trace advance].
  - rewrite <- app_assoc. reflexivity.
  - reflexivity.
Qed.

End DetectPaths.

(** ** Runs of the parts *)

Section PartRuns.

Context {World : Type}.
Variable P : Platform World.

Lemma mpuGyroRead_run (s : machine World) (f : mpuReadRegisterFunc)
    (ack : bool) (data : list byte) (w : World) :
  readFn (mpuConfiguration (gyro s)) = Some f ->
  readOracle P f (gyroReadXRegister (mpuConfiguration (gyro s))) 6 (world s)
    = (ack, data, w) ->
  mpuGyroRead P s
  = let s1 := advance w (readEvent f (gyroReadXRegister (mpuConfiguration (gyro s))) 6) s in
    if ack
    then Done true (upd_gyro (gyro_upd_gyroADCRaw (fun _ => spec_decode data)) s1)
    else Done false s1.
Proof.
  intros Hf Hread. unfold mpuGyroRead. rewrite bind_getGyro. unfold bind.
  rewrite Hf, (callReadFn_run P _ _ _ _ _ _ _ Hread).
  destruct ack; [| reflexivity].
  cbn [negb]. unfold modifyGyro, ret. rewrite !decode_cells. reflexivity.
Qed.

Lemma mpuAccRead_run (s : machine World) (f : mpuReadRegisterFunc)
    (ack : bool) (data : list byte) (w : World) :
  readFn (acc_mpuConfiguration (acc s)) = Some f ->
  readOracle P f (MPU_RA_ACCEL_XOUT_H (regs P)) 6 (world s) = (ack, data, w) ->
  mpuAccRead P s
  = let s1 := advance w (readEvent f (MPU_RA_ACCEL_XOUT_H (regs P)) 6) s in
    if ack
    then Done true (upd_acc (acc_upd_ADCRaw (fun _ => spec_decode data)) s1)
    else Done false s1.
Proof.
  intros Hf Hread. unfold mpuAccRead. rewrite bind_getAcc. unfold bind.
  rewrite Hf, (callReadFn_run P _ _ _ _ _ _ _ Hread).
  destruct ack; [| reflexivity].
  cbn [negb]. unfold modifyAcc, ret. rewrite !decode_cells. reflexivity.
Qed.

(** A call through a null read pointer stops the run where it is. *)
Lemma mpu6050FindRevision_null (s : machine World) :
  readFn (mpuConfiguration (gyro s)) = None ->
  mpu6050FindRevision P s = Halted NullCall s.
Proof.
  intros Hf. unfold mpu6050FindRevision. rewrite bind_getGyro. unfold bind.
  rewrite Hf. reflexivity.
Qed.

(** How [mpu6050FindRevision] can end: with a resolution stored and
    nothing else of the devices changed, or in [failureMode] with the
    devices as they were; either way after one or two bus reads. *)
Lemma mpu6050FindRevision_ends (s : machine World) (f : mpuReadRegisterFunc) :
  readFn (mpuConfiguration (gyro s)) = Some f ->
  exists (w : World) (tail : list event),
    (tail = [] \/ tail = [readEvent f (MPU_RA_PRODUCT_ID (regs P)) 1]) /\
    let s1 := {| gyro := gyro s; acc := acc s;
                 glob_mpuDetectionResult := glob_mpuDetectionResult s;
                 glob_mpuConfiguration := glob_mpuConfiguration s;
                 world := w;
                 trace := trace s
                          ++ readEvent f (MPU_RA_XA_OFFS_H (regs P)) 6 :: tail |} in
    ((exists r, mpu6050FindRevision P s
                = Done tt (upd_gyro (gyro_upd_detectionResult (res_set_resolution r)) s1))
     \/ mpu6050FindRevision P s = Halted (FailureMode FAILURE_ACC_INCOMPATIBLE) s1).
Proof.
  intros Hf.
  destruct (readOracle P f (MPU_RA_XA_OFFS_H (regs P)) 6 (world s))
    as [[ack burst] w1] eqn:Hburst.
  pose proof (mpu6050FindRevision_run P s f ack burst w1 Hf Hburst) as Hrun.
  cbv zeta in Hrun.
  destruct (spec_classifyCode (spec_revisionCode burst)).
  - exists w1, []. split; [left; reflexivity |]. left. exists r. exact Hrun.
  - exists w1, []. split; [left; reflexivity |]. right. exact Hrun.
  - destruct (readOracle P f (MPU_RA_PRODUCT_ID (regs P)) 1 w1)
      as [[ack2 productId] w2] eqn:Hpid.
    specialize (Hrun ack2 productId w2 eq_refl).
    exists w2, [readEvent f (MPU_RA_PRODUCT_ID (regs P)) 1].
    split; [right; reflexivity |].
    assert (Hstate :
      advance w2 (readEvent f (MPU_RA_PRODUCT_ID (regs P)) 1)
        (advance w1 (readEvent f (MPU_RA_XA_OFFS_H (regs P)) 6) s)
      = {| gyro := gyro s; acc := acc s;
           glob_mpuDetectionResult := glob_mpuDetectionResult s;
           glob_mpuConfiguration := glob_mpuConfiguration s;
           world := w2;
           trace := trace s ++ [readEvent f (MPU_RA_XA_OFFS_H (regs P)) 6;
                                readEvent f (MPU_RA_PRODUCT_ID (regs P)) 1] |}).
    { unfold advance. cbn [gyro acc glob_mpuDetectionResult glob_mpuConfiguration
        world trace]. rewrite <- app_assoc. reflexivity. }
    rewrite Hstate in Hrun.
    destruct (spec_classifyNibble (spec_nibble productId));
      [left; exists r; exact Hrun | right; exact Hrun | right; exact Hrun].
Qed.

(** A scan that finds its first claim at [p]. *)
Lemma spiScan_first_claim (before : list spiProbe) (p : spiProbe)
    (after : list spiProbe) (s : machine World) (w : World) :
  allDecline P before (world s) = true ->
  spiDetect P p (worldAfterProbes P before (world s)) = (true, w) ->
  spiScan P (before ++ p :: after) s
  = (true, spiClaimed P p (advance w (EvSpiDetect p) (afterDeclines P before s))).
Proof.
  intros Hdecl Hclaim. rewrite (spiScan_declines P before (p :: after) s Hdecl).
  cbn [spiScan].
  destruct (afterDeclines_frame P before s) as (_ & _ & _ & _ & Hw & _).
  rewrite Hw, Hclaim. reflexivity.
Qed.

(** [mpuDetect] when nothing answers on I2C and [p] is the first SPI
    probe to claim the device. *)
Lemma mpuDetect_spi_claimed (before : list spiProbe) (p : spiProbe)
    (after : list spiProbe) (s : machine World) (w : World) :
  primarySilent P s ->
  USE_SPI (build P) = true ->
  enabledProbes (build P) = before ++ p :: after ->
  allDecline P before (world (afterIdentity P s)) = true ->
  spiDetect P p (worldAfterProbes P before (world (afterIdentity P s))) = (true, w) ->
  mpuDetect P s
  = Done tt (spiClaimed P p
               (advance w (EvSpiDetect p) (afterDeclines P before (afterIdentity P s)))).
Proof.
  intros Hsilent Hspi Hsplit Hdecl Hclaim.
  rewrite (mpuDetect_silent P s Hsilent), Hspi, Hsplit.
  rewrite (spiScan_first_claim before p after _ w Hdecl Hclaim). reflexivity.
Qed.

End PartRuns.

(* ================================================================== *)
(** ** The SPI detection *)

(** X1.  [detectSPISensorsAndUpdateDetectionResult] always returns.  It
    answers [true] exactly when some compiled-in probe claims the
    device; the probes it calls are an initial stretch of the
    compiled-in ones, in their order, each once; and it leaves the
    latch, the callback, the samples, the resolution and the
    accelerometer alone. *)
Theorem detectSPI_tries_in_order {World} (P : Platform World) (s : machine World) :
  exists (s' : machine World) (tried rest : list spiProbe),
    detectSPISensorsAndUpdateDetectionResult P s
    = Done (negb (allDecline P (enabledProbes (build P)) (world s))) s' /\
    enabledProbes (build P) = tried ++ rest /\
    trace s' = trace s ++ map EvSpiDetect tried /\
    detectFrame s s' /\
    resolution (mpuDetectionResult (gyro s')) = resolution (mpuDetectionResult (gyro s)).
Proof.
  destruct (spiScan_calls P (enabledProbes (build P)) s)
    as (tried & rest & Hsplit & Htrace & Hframe & Hres).
  exists (snd (spiScan P (enabledProbes (build P)) s)), tried, rest.
  rewrite detectSPI_scan, spiScan_answer. repeat split; try assumption; apply Hframe.
Qed.

(** X2.  The first probe to claim the device wins: when the probes
    before [p] decline and [p] claims, the function returns [true] with
    the assignments of the block of [p] made, and no probe after [p] is
    called. *)
Theorem detectSPI_first_claim_wins {World} (P : Platform World) (s : machine World)
    (before : list spiProbe) (p : spiProbe) (after : list spiProbe) (w : World) :
  enabledProbes (build P) = before ++ p :: after ->
  allDecline P before (world s) = true ->
  spiDetect P p (worldAfterProbes P before (world s)) = (true, w) ->
  let s' := spiClaimed P p (advance w (EvSpiDetect p) (afterDeclines P before s)) in
  detectSPISensorsAndUpdateDetectionResult P s = Done true s' /\
  trace s' = trace s ++ map EvSpiDetect (before ++ [p]) /\
  world s' = w.
Proof.
  intros Hsplit Hdecl Hclaim s'.
  rewrite detectSPI_scan, Hsplit.
  rewrite (spiScan_first_claim P before p after s w Hdecl Hclaim).
  split; [reflexivity |]. subst s'.
  destruct (spiClaimed_frame P p (advance w (EvSpiDetect p) (afterDeclines P before s)))
    as (_ & Hw & Ht & _).
  rewrite Hw, Ht. cbn [world trace advance].
  destruct (afterDeclines_frame P before s) as (_ & _ & _ & _ & _ & Htrace).
  rewrite Htrace, map_app, <- app_assoc. split; reflexivity.
Qed.

(** On the bench: the MPU6000 probe declines, the MPU6500 probe claims;
    the three probes after it are not called. *)
Lemma detectSPI_first_claim_wins_witness :
  fst (spiScan Bench.platform (enabledProbes Bench.allOn)
         (Bench.boot {| Bench.reads := []; Bench.probes := [false; true] |})) = true /\
  trace (final (detectSPISensorsAndUpdateDetectionResult Bench.platform
                  (Bench.boot {| Bench.reads := []; Bench.probes := [false; true] |})))
    = [EvSpiDetect mpu6000SpiDetect; EvSpiDetect mpu6500SpiDetect] /\
  sensor (mpuDetectionResult
            (gyro (final (detectSPISensorsAndUpdateDetectionResult Bench.platform
                     (Bench.boot {| Bench.reads := []; Bench.probes := [false; true] |})))))
    = MPU_65xx_SPI.
Proof.
  destruct (detectSPI_first_claim_wins Bench.platform
              (Bench.boot {| Bench.reads := []; Bench.probes := [false; true] |})
              [mpu6000SpiDetect] mpu6500SpiDetect
              [mpu9250SpiDetect; icm20608SpiDetect; icm20689SpiDetect]
              Bench.quiet eq_refl eq_refl eq_refl) as (Hrun & _).
  rewrite Hrun. repeat split.
Defined.

(** X3.  When nothing answers on I2C and the ICM20608 probe is the
    first to claim the device, [mpuDetect] returns with both devices
    exactly as it found them: the block of that probe assigns to
    [mpuDetectionResult] and [mpuConfiguration] without [gyro->], so the
    device gets neither a variant nor a read or write function. *)
Theorem mpuDetect_icm20608_leaves_device {World} (P : Platform World)
    (s : machine World) (before after : list spiProbe) (w : World) :
  primarySilent P s ->
  USE_SPI (build P) = true ->
  enabledProbes (build P) = before ++ icm20608SpiDetect :: after ->
  allDecline P before (world (afterIdentity P s)) = true ->
  spiDetect P icm20608SpiDetect
    (worldAfterProbes P before (world (afterIdentity P s))) = (true, w) ->
  exists s',
    mpuDetect P s = Done tt s' /\
    gyro s' = gyro s /\ acc s' = acc s /\
    trace s' = trace (afterIdentity P s)
               ++ map EvSpiDetect (before ++ [icm20608SpiDetect]).
Proof.
  intros Hsilent Hspi Hsplit Hdecl Hclaim.
  eexists. split.
  - exact (mpuDetect_spi_claimed P before icm20608SpiDetect after s w
             Hsilent Hspi Hsplit Hdecl Hclaim).
  - destruct (afterDeclines_frame P before (afterIdentity P s))
      as (Hg & Ha & _ & _ & _ & Ht).
    destruct (afterIdentity_frame P s) as (Hg0 & Ha0 & _).
    cbn [spiClaimed gyro acc trace upd_globConfiguration upd_globResult advance].
    rewrite Hg, Ha, Ht, Hg0, Ha0, map_app, <- app_assoc. repeat split.
Qed.

(** On the bench: three probes decline and the ICM20608 probe claims;
    the device is still the fresh one, variant [MPU_NONE]. *)
Lemma mpuDetect_icm20608_leaves_device_witness :
  gyro (final (mpuDetect Bench.platform (Bench.boot BenchMore.icm20608World)))
    = Bench.freshGyro /\
  trace (final (mpuDetect Bench.platform (Bench.boot BenchMore.icm20608World)))
    = [EvDelay 35; EvI2cRead 0x68 0x75 1;
       EvSpiDetect mpu6000SpiDetect; EvSpiDetect mpu6500SpiDetect;
       EvSpiDetect mpu9250SpiDetect; EvSpiDetect icm20608SpiDetect].
Proof.
  destruct (mpuDetect_icm20608_leaves_device Bench.platform
              (Bench.boot BenchMore.icm20608World)
              [mpu6000SpiDetect; mpu6500SpiDetect; mpu9250SpiDetect]
              [icm20689SpiDetect] Bench.quiet)
    as (s' & Hrun & Hgyro & _ & Htrace).
  - intros _. reflexivity.
  - reflexivity.
  - reflexivity.
  - reflexivity.
  - reflexivity.
  - rewrite Hrun. cbn [final]. rewrite Hgyro, Htrace. split; reflexivity.
Defined.

(** X4.  When nothing answers on I2C and a probe other than the
    ICM20608 one is the first to claim the device, [mpuDetect] returns
    with the variant of that probe, its read and write functions and
    [MPU_RA_GYRO_XOUT_H] installed; the resolution is not touched and no
    register is read after the identity probe.  The slow read, the
    verified write and the reset function are installed for the MPU9250
    and left alone for the others. *)
Theorem mpuDetect_spi_claim_installs {World} (P : Platform World)
    (s : machine World) (before : list spiProbe) (p : spiProbe)
    (after : list spiProbe) (w : World) :
  primarySilent P s ->
  USE_SPI (build P) = true ->
  enabledProbes (build P) = before ++ p :: after ->
  allDecline P before (world (afterIdentity P s)) = true ->
  spiDetect P p (worldAfterProbes P before (world (afterIdentity P s))) = (true, w) ->
  p <> icm20608SpiDetect ->
  exists s',
    mpuDetect P s = Done tt s' /\
    sensor (mpuDetectionResult (gyro s')) = spiVariant p /\
    readFn (mpuConfiguration (gyro s')) = Some (spiReadFn p) /\
    writeFn (mpuConfiguration (gyro s')) = Some (spiWriteFn p) /\
    gyroReadXRegister (mpuConfiguration (gyro s')) = MPU_RA_GYRO_XOUT_H (regs P) /\
    resolution (mpuDetectionResult (gyro s')) = resolution (mpuDetectionResult (gyro s)) /\
    match p with
    | mpu9250SpiDetect =>
        slowreadFn (mpuConfiguration (gyro s')) = Some ptr_mpu9250SlowReadRegister /\
        verifywriteFn (mpuConfiguration (gyro s')) = Some ptr_verifympu9250WriteRegister /\
        resetFn (mpuConfiguration (gyro s')) = Some ptr_mpu9250ResetGyro
    | _ =>
        slowreadFn (mpuConfiguration (gyro s')) = slowreadFn (mpuConfiguration (gyro s)) /\
        verifywriteFn (mpuConfiguration (gyro s'))
          = verifywriteFn (mpuConfiguration (gyro s)) /\
        resetFn (mpuConfiguration (gyro s')) = resetFn (mpuConfiguration (gyro s))
    end /\
    trace s' = trace (afterIdentity P s) ++ map EvSpiDetect (before ++ [p]) /\
    world s' = w.
Proof.
  intros Hsilent Hspi Hsplit Hdecl Hclaim Hnot.
  eexists. split.
  - exact (mpuDetect_spi_claimed P before p after s w
             Hsilent Hspi Hsplit Hdecl Hclaim).
  - destruct (afterDeclines_frame P before (afterIdentity P s))
      as (Hg & _ & _ & _ & _ & Ht).
    destruct (afterIdentity_frame P s) as (Hg0 & _).
    destruct p; try (exfalso; apply Hnot; reflexivity);
      cbn [spiClaimed spiVariant spiReadFn spiWriteFn gyro world trace advance upd_gyro
           gyro_upd_configuration gyro_upd_detectionResult mpuConfiguration
           mpuDetectionResult cfg_set_writeFn cfg_set_readFn cfg_set_gyroReadXRegister
           cfg_set_resetFn cfg_set_verifywriteFn cfg_set_slowreadFn res_set_sensor
           sensor resolution readFn writeFn gyroReadXRegister slowreadFn verifywriteFn
           resetFn];
      rewrite Hg, Ht, Hg0, map_app, <- app_assoc; repeat split.
Qed.

(** On the bench: the MPU6000 probe declines and the MPU6500 probe
    claims. *)
Lemma mpuDetect_spi_claim_installs_witness :
  sensor (mpuDetectionResult
    (gyro (final (mpuDetect Bench.platform (Bench.boot BenchMore.spi6500World)))))
    = MPU_65xx_SPI /\
  readFn (mpuConfiguration
    (gyro (final (mpuDetect Bench.platform (Bench.boot BenchMore.spi6500World)))))
    = Some ptr_mpu6500ReadRegister /\
  writeFn (mpuConfiguration
    (gyro (final (mpuDetect Bench.platform (Bench.boot BenchMore.spi6500World)))))
    = Some ptr_mpu6500WriteRegister /\
  gyroReadXRegister (mpuConfiguration
    (gyro (final (mpuDetect Bench.platform (Bench.boot BenchMore.spi6500World)))))
    = 0x43 /\
  trace (final (mpuDetect Bench.platform (Bench.boot BenchMore.spi6500World)))
    = [EvDelay 35; EvI2cRead 0x68 0x75 1;
       EvSpiDetect mpu6000SpiDetect; EvSpiDetect mpu6500SpiDetect].
Proof.
  destruct (mpuDetect_spi_claim_installs Bench.platform
              (Bench.boot BenchMore.spi6500World)
              [mpu6000SpiDetect] mpu6500SpiDetect
              [mpu9250SpiDetect; icm20608SpiDetect; icm20689SpiDetect] Bench.quiet)
    as (s' & Hrun & Hsensor & Hread & Hwrite & Hreg & _ & _ & Htrace & _).
  - intros _. reflexivity.
  - reflexivity.
  - reflexivity.
  - reflexivity.
  - reflexivity.
  - intros H; discriminate H.
  - rewrite Hrun. cbn [final]. rewrite Hsensor, Hread, Hwrite, Hreg, Htrace.
    repeat split.
Defined.

(* ================================================================== *)
(** ** Detection, then reading *)

(** X5.  After a detection won by an SPI probe other than the ICM20608
    one, [mpuGyroRead] goes through the read function of that probe, at
    [MPU_RA_GYRO_XOUT_H], for 6 bytes; acknowledged, it stores the
    decoded burst and returns [true]. *)
Theorem spi_detect_then_gyro_read {World} (P : Platform World)
    (s : machine World) (before : list spiProbe) (p : spiProbe)
    (after : list spiProbe) (w : World) (data : list byte) (w' : World) :
  primarySilent P s ->
  USE_SPI (build P) = true ->
  enabledProbes (build P) = before ++ p :: after ->
  allDecline P before (world (afterIdentity P s)) = true ->
  spiDetect P p (worldAfterProbes P before (world (afterIdentity P s))) = (true, w) ->
  p <> icm20608SpiDetect ->
  spiRead P (spiReadFn p) (MPU_RA_GYRO_XOUT_H (regs P)) 6 w = (true, data, w') ->
  exists s'',
    bind (mpuDetect P) (fun _ => mpuGyroRead P) s = Done true s'' /\
    gyroADCRaw (gyro s'') = spec_decode data /\
    sensor (mpuDetectionResult (gyro s'')) = spiVariant p /\
    world s'' = w' /\
    trace s'' = trace (afterIdentity P s)
                ++ map EvSpiDetect (before ++ [p])
                ++ [EvSpiRead (spiReadFn p) (MPU_RA_GYRO_XOUT_H (regs P)) 6].
Proof.
  intros Hsilent Hspi Hsplit Hdecl Hclaim Hnot Hread.
  unfold bind.
  rewrite (mpuDetect_spi_claimed P before p after s w Hsilent Hspi Hsplit Hdecl Hclaim).
  set (s1 := spiClaimed P p
               (advance w (EvSpiDetect p) (afterDeclines P before (afterIdentity P s)))).
  assert (Hf : readFn (mpuConfiguration (gyro s1)) = Some (spiReadFn p)).
  { destruct p; try reflexivity. exfalso; apply Hnot; reflexivity. }
  assert (Hreg : gyroReadXRegister (mpuConfiguration (gyro s1))
                 = MPU_RA_GYRO_XOUT_H (regs P)).
  { destruct p; try reflexivity. exfalso; apply Hnot; reflexivity. }
  assert (Hw : world s1 = w) by (destruct p; reflexivity).
  assert (Hsensor : sensor (mpuDetectionResult (gyro s1)) = spiVariant p).
  { destruct p; try reflexivity. exfalso; apply Hnot; reflexivity. }
  assert (Ht : trace s1 = trace (afterIdentity P s) ++ map EvSpiDetect (before ++ [p])).
  { destruct (spiClaimed_frame P p
                (advance w (EvSpiDetect p) (afterDeclines P before (afterIdentity P s))))
      as (_ & _ & Htr & _).
    unfold s1. rewrite Htr. cbn [trace advance].
    destruct (afterDeclines_frame P before (afterIdentity P s))
      as (_ & _ & _ & _ & _ & Htrace).
    rewrite Htrace, map_app, <- app_assoc. reflexivity. }
  assert (Horacle : readOracle P (spiReadFn p)
                      (gyroReadXRegister (mpuConfiguration (gyro s1))) 6 (world s1)
                    = (true, data, w')).
  { rewrite Hreg, Hw. destruct p; exact Hread. }
  rewrite (mpuGyroRead_run P s1 (spiReadFn p) true data w' Hf Horacle).
  cbv zeta. eexists. split; [reflexivity |].
  cbn [gyro world trace upd_gyro advance gyroADCRaw gyro_upd_gyroADCRaw
       mpuDetectionResult].
  rewrite Hsensor, Ht, Hreg, <- app_assoc.
  repeat split. destruct p; reflexivity.
Qed.

(** On the bench: the MPU6500 probe claims, then a sample burst is
    acknowledged. *)
Lemma spi_detect_then_gyro_read_witness :
  exists s'',
    bind (mpuDetect Bench.platform) (fun _ => mpuGyroRead Bench.platform)
      (Bench.boot {| Bench.reads := [(false, [x00]); (true, Bench.sampleBurst)];
                     Bench.probes := [false; true] |})
    = Done true s'' /\
    gyroADCRaw (gyro s'') = {| atX := -2; atY := 1; atZ := -32768 |}.
Proof.
  destruct (spi_detect_then_gyro_read Bench.platform
              (Bench.boot {| Bench.reads := [(false, [x00]); (true, Bench.sampleBurst)];
                             Bench.probes := [false; true] |})
              [mpu6000SpiDetect] mpu6500SpiDetect
              [mpu9250SpiDetect; icm20608SpiDetect; icm20689SpiDetect]
              {| Bench.reads := [(true, Bench.sampleBurst)]; Bench.probes := [] |}
              Bench.sampleBurst Bench.quiet)
    as (s'' & Hrun & Hraw & _).
  - intros _. reflexivity.
  - reflexivity.
  - reflexivity.
  - reflexivity.
  - reflexivity.
  - intros H; discriminate H.
  - reflexivity.
  - exists s''. split; [exact Hrun | exact Hraw].
Defined.

(** X6.  After a detection on I2C that returned, whatever the variant it
    found (or failed to find), [mpuGyroRead] goes through the I2C read
    for 6 bytes, at [MPU3050_GYRO_OUT] if the legacy register answered
    with the legacy pattern and at [MPU_RA_GYRO_XOUT_H] otherwise;
    acknowledged, it stores the decoded burst and returns [true]. *)
Theorem i2c_detect_then_gyro_read {World} (P : Platform World)
    (s : machine World) (sigbuf : list byte) (w1 : World)
    (ack2 : bool) (inqbuf : list byte) (w2 : World) (s1 : machine World)
    (data : list byte) (w' : World) :
  USE_I2C (build P) = true ->
  i2cRead P MPU_ADDRESS (MPU_RA_WHO_AM_I (regs P)) 1 (delay_fn P 35 (world s))
    = (true, sigbuf, w1) ->
  i2cRead P MPU_ADDRESS (MPU_RA_WHO_AM_I_LEGACY (regs P)) 1 w1 = (ack2, inqbuf, w2) ->
  mpuDetect P s = Done tt s1 ->
  let reg := if ack2 && (Z.land (cell inqbuf 0) MPU_INQUIRY_MASK
                         =? MPUx0x0_WHO_AM_I_CONST)
             then MPU3050_GYRO_OUT (regs P)
             else MPU_RA_GYRO_XOUT_H (regs P) in
  i2cRead P MPU_ADDRESS reg 6 (world s1) = (true, data, w') ->
  mpuGyroRead P s1
  = Done true (upd_gyro (gyro_upd_gyroADCRaw (fun _ => spec_decode data))
                 (advance w' (EvI2cRead MPU_ADDRESS reg 6) s1)).
Proof.
  intros Hi2c Hsig Hinq Hdone reg Hread.
  assert (Hcfg : readFn (mpuConfiguration (gyro s1)) = Some ptr_mpuReadRegisterI2C /\
                 gyroReadXRegister (mpuConfiguration (gyro s1)) = reg).
  { rewrite (mpuDetect_primary P s sigbuf w1 ack2 inqbuf w2 Hi2c Hsig Hinq) in Hdone.
    subst reg.
    destruct (ack2 && _).
    { injection Hdone as <-. split; reflexivity. }
    destruct (_ =? MPUx0x0_WHO_AM_I_CONST).
    { set (s3 := upd_gyro (gyro_upd_detectionResult (res_set_sensor MPU_60x0))
                   (afterProbes P s w2)) in *.
      destruct (mpu6050FindRevision_frame P s3 ptr_mpuReadRegisterI2C eq_refl)
        as (Hkeep & _).
      rewrite Hdone in Hkeep. cbn [final] in Hkeep. rewrite Hkeep.
      split; reflexivity. }
    destruct (_ =? MPU6500_WHO_AM_I_CONST);
      injection Hdone as <-; split; reflexivity. }
  destruct Hcfg as [Hf Hreg].
  assert (Horacle : readOracle P ptr_mpuReadRegisterI2C
                      (gyroReadXRegister (mpuConfiguration (gyro s1))) 6 (world s1)
                    = (true, data, w')).
  { rewrite Hreg. exact Hread. }
  rewrite (mpuGyroRead_run P s1 ptr_mpuReadRegisterI2C true data w' Hf Horacle).
  cbv zeta. rewrite Hreg. reflexivity.
Qed.

(** On the bench: a legacy detection, then a sample burst read at
    register 0x1D. *)
Lemma i2c_detect_then_gyro_read_witness :
  exists s1,
    mpuDetect Bench.platform (Bench.boot BenchMore.legacyThenSample) = Done tt s1 /\
    mpuGyroRead Bench.platform s1
    = Done true (upd_gyro (gyro_upd_gyroADCRaw
                             (fun _ => {| atX := -2; atY := 1; atZ := -32768 |}))
                   (advance Bench.quiet (EvI2cRead 0x68 0x1D 6) s1)).
Proof.
  exists (final (mpuDetect Bench.platform (Bench.boot BenchMore.legacyThenSample))).
  split; [reflexivity |].
  exact (i2c_detect_then_gyro_read Bench.platform
           (Bench.boot BenchMore.legacyThenSample)
           [x00]
           {| Bench.reads := [(true, [x69]); (true, Bench.sampleBurst)];
              Bench.probes := [] |}
           true [x69] Bench.sampleWorld _ Bench.sampleBurst Bench.quiet
           eq_refl eq_refl eq_refl eq_refl eq_refl).
Defined.

(* ================================================================== *)
(** ** What detection and classification leave alone *)

Section Frames.

Context {World : Type}.
Variable P : Platform World.

Lemma readEvent_isRegisterRead (f : mpuReadRegisterFunc) (reg len : Z) :
  isRegisterRead (readEvent f reg len) = true.
Proof. destruct f; reflexivity. Qed.

(** Whatever way it ends, [mpu6050FindRevision] has changed nothing of
    the devices but, at most, the resolution. *)
Lemma mpu6050FindRevision_keeps (s : machine World) :
  mpuConfiguration (gyro (final (mpu6050FindRevision P s))) = mpuConfiguration (gyro s) /\
  sensor (mpuDetectionResult (gyro (final (mpu6050FindRevision P s))))
    = sensor (mpuDetectionResult (gyro s)) /\
  detectFrame s (final (mpu6050FindRevision P s)) /\
  (forall h t, mpu6050FindRevision P s = Halted h t -> gyro t = gyro s).
Proof.
  destruct (readFn (mpuConfiguration (gyro s))) as [f |] eqn:Hf.
  - destruct (mpu6050FindRevision_ends P s f Hf) as (w & tail & _ & Hend).
    cbv zeta in Hend. destruct Hend as [[r Hrun] | Hrun]; rewrite Hrun.
    + repeat split. intros h t Hhalt. discriminate Hhalt.
    + repeat split. intros h t Hhalt. injection Hhalt as _ <-. reflexivity.
  - rewrite (mpu6050FindRevision_null P s Hf).
    repeat split. intros h t Hhalt. injection Hhalt as _ <-. reflexivity.
Qed.

Lemma forallb_map_EvSpiDetect (ps : list spiProbe) :
  forallb isSpiDetect (map EvSpiDetect ps) = true.
Proof. induction ps as [| p ps IH]; [reflexivity | exact IH]. Qed.

End Frames.

(** X7.  However it ends, and whatever answers, [mpuDetect] leaves the
    data-ready latch, the update callback, the gyro samples and the
    accelerometer device as it found them. *)
Theorem mpuDetect_frame {World} (P : Platform World) (s : machine World) :
  detectFrame s (final (mpuDetect P s)).
Proof.
  destruct (mpuDetect_paths P s)
    as [Hsilent | (sigbuf & w1 & ack2 & inqbuf & w2 & Hi2c & Hsig & Hinq)].
  - rewrite (mpuDetect_silent P s Hsilent).
    destruct (afterIdentity_frame P s) as (Hg & Ha & _).
    destruct (USE_SPI (build P)); cbn [final].
    + destruct (spiScan_calls P (enabledProbes (build P)) (afterIdentity P s))
        as (tried & rest & _ & _ & (H1 & H2 & H3 & H4) & _).
      unfold detectFrame. rewrite H1, H2, H3, H4, Hg, Ha. repeat split.
    + unfold detectFrame. rewrite Hg, Ha. repeat split.
  - rewrite (mpuDetect_primary P s sigbuf w1 ack2 inqbuf w2 Hi2c Hsig Hinq).
    destruct (ack2 && _); [repeat split |].
    destruct (_ =? MPUx0x0_WHO_AM_I_CONST).
    + match goal with
      | |- detectFrame s (final (mpu6050FindRevision P ?t)) =>
          destruct (mpu6050FindRevision_keeps P t) as (_ & _ & (H1 & H2 & H3 & H4) & _)
      end.
      unfold detectFrame. rewrite H1, H2, H3, H4. repeat split.
    + destruct (_ =? MPU6500_WHO_AM_I_CONST); repeat split.
Qed.

(** X8.  [mpuDetect] stops short of returning in one case only: the
    device is a six-axis part on I2C whose revision is not supported.
    The stop is [failureMode] with [FAILURE_ACC_INCOMPATIBLE], never a
    call through a null pointer; the variant is then already
    [MPU_60x0], the I2C functions and [MPU_RA_GYRO_XOUT_H] are
    installed, and the resolution is what it was before. *)
Theorem mpuDetect_halts_only_unsupported {World} (P : Platform World)
    (s : machine World) (h : halt) (s' : machine World) :
  mpuDetect P s = Halted h s' ->
  h = FailureMode FAILURE_ACC_INCOMPATIBLE /\
  sensor (mpuDetectionResult (gyro s')) = MPU_60x0 /\
  resolution (mpuDetectionResult (gyro s')) = resolution (mpuDetectionResult (gyro s)) /\
  readFn (mpuConfiguration (gyro s')) = Some ptr_mpuReadRegisterI2C /\
  writeFn (mpuConfiguration (gyro s')) = Some ptr_mpuWriteRegisterI2C /\
  gyroReadXRegister (mpuConfiguration (gyro s')) = MPU_RA_GYRO_XOUT_H (regs P).
Proof.
  intros Hhalt.
  destruct (mpuDetect_paths P s)
    as [Hsilent | (sigbuf & w1 & ack2 & inqbuf & w2 & Hi2c & Hsig & Hinq)].
  - rewrite (mpuDetect_silent P s Hsilent) in Hhalt.
    destruct (USE_SPI (build P)); discriminate Hhalt.
  - rewrite (mpuDetect_primary P s sigbuf w1 ack2 inqbuf w2 Hi2c Hsig Hinq) in Hhalt.
    destruct (ack2 && _); [discriminate Hhalt |].
    destruct (_ =? MPUx0x0_WHO_AM_I_CONST).
    + set (s3 := upd_gyro (gyro_upd_detectionResult (res_set_sensor MPU_60x0))
                   (afterProbes P s w2)) in *.
      destruct (mpu6050FindRevision_ends P s3 ptr_mpuReadRegisterI2C eq_refl)
        as (w & tail & _ & Hend).
      cbv zeta in Hend. destruct Hend as [[r Hrun] | Hrun];
        rewrite Hrun in Hhalt; [discriminate Hhalt |].
      injection Hhalt as <- <-. repeat split.
    + destruct (_ =? MPU6500_WHO_AM_I_CONST); discriminate Hhalt.
Qed.

(** On the bench: identity byte 0x68, then a revision burst with
    code 4. *)
Lemma mpuDetect_halts_only_unsupported_witness :
  exists s',
    mpuDetect Bench.platform (Bench.boot BenchMore.unsupportedWorld)
    = Halted (FailureMode FAILURE_ACC_INCOMPATIBLE) s' /\
    sensor (mpuDetectionResult (gyro s')) = MPU_60x0 /\
    resolution (mpuDetectionResult (gyro s')) = MPU_HALF_RESOLUTION.
Proof.
  exists (final (mpuDetect Bench.platform (Bench.boot BenchMore.unsupportedWorld))).
  destruct (mpuDetect_halts_only_unsupported Bench.platform
              (Bench.boot BenchMore.unsupportedWorld)
              (FailureMode FAILURE_ACC_INCOMPATIBLE)
              (final (mpuDetect Bench.platform (Bench.boot BenchMore.unsupportedWorld)))
              eq_refl)
    as (_ & Hsensor & Hres & _).
  split; [reflexivity |]. split; [exact Hsensor | exact Hres].
Defined.

(** X9.  When the identity probe on I2C is acknowledged, the legacy
    probe does not make the device an MPU-3050, and the identity byte
    under the inquiry mask is the MPU-6500 constant, [mpuDetect] returns
    with the variant [MPU_65xx_I2C], the I2C functions and
    [MPU_RA_GYRO_XOUT_H] installed, after the settle delay and the two
    identity reads only; the resolution is not touched. *)
Theorem mpuDetect_extended {World} (P : Platform World) (s : machine World)
    (sigbuf : list byte) (w1 : World) (ack2 : bool) (inqbuf : list byte) (w2 : World) :
  USE_I2C (build P) = true ->
  i2cRead P MPU_ADDRESS (MPU_RA_WHO_AM_I (regs P)) 1 (delay_fn P 35 (world s))
    = (true, sigbuf, w1) ->
  i2cRead P MPU_ADDRESS (MPU_RA_WHO_AM_I_LEGACY (regs P)) 1 w1 = (ack2, inqbuf, w2) ->
  ack2 && (Z.land (cell inqbuf 0) MPU_INQUIRY_MASK =? MPUx0x0_WHO_AM_I_CONST) = false ->
  Z.land (cell sigbuf 0) MPU_INQUIRY_MASK = MPU6500_WHO_AM_I_CONST ->
  let s' := upd_gyro (gyro_upd_detectionResult (res_set_sensor MPU_65xx_I2C))
              (afterProbes P s w2) in
  mpuDetect P s = Done tt s' /\
  sensor (mpuDetectionResult (gyro s')) = MPU_65xx_I2C /\
  resolution (mpuDetectionResult (gyro s')) = resolution (mpuDetectionResult (gyro s)) /\
  readFn (mpuConfiguration (gyro s')) = Some ptr_mpuReadRegisterI2C /\
  writeFn (mpuConfiguration (gyro s')) = Some ptr_mpuWriteRegisterI2C /\
  gyroReadXRegister (mpuConfiguration (gyro s')) = MPU_RA_GYRO_XOUT_H (regs P) /\
  trace s' = trace s ++ probeCalls P.
Proof.
  intros Hi2c Hsig Hinq Hlegacy H65 s'.
  rewrite (mpuDetect_primary P s sigbuf w1 ack2 inqbuf w2 Hi2c Hsig Hinq).
  rewrite Hlegacy, H65. repeat split.
Qed.

(** On the bench: identity byte 0x70 and a legacy read that is
    refused. *)
Lemma mpuDetect_extended_witness :
  sensor (mpuDetectionResult
            (gyro (final (mpuDetect Bench.platform (Bench.boot BenchMore.extendedWorld)))))
    = MPU_65xx_I2C /\
  trace (final (mpuDetect Bench.platform (Bench.boot BenchMore.extendedWorld)))
    = [EvDelay 35; EvI2cRead 0x68 0x75 1; EvI2cRead 0x68 0x00 1].
Proof.
  destruct (mpuDetect_extended Bench.platform (Bench.boot BenchMore.extendedWorld)
              [x70] {| Bench.reads := [(false, [x00])]; Bench.probes := [] |}
              false [x00] Bench.quiet eq_refl eq_refl eq_refl eq_refl eq_refl)
    as (Hrun & _).
  rewrite Hrun. split; reflexivity.
Defined.

(** The calls of [mpuDetect] once both identity reads on I2C are
    known, and what is installed however the run ends. *)
Lemma mpuDetect_primary_tail {World} (P : Platform World)
    (s : machine World) (sigbuf : list byte) (w1 : World)
    (ack2 : bool) (inqbuf : list byte) (w2 : World) :
  USE_I2C (build P) = true ->
  i2cRead P MPU_ADDRESS (MPU_RA_WHO_AM_I (regs P)) 1 (delay_fn P 35 (world s))
    = (true, sigbuf, w1) ->
  i2cRead P MPU_ADDRESS (MPU_RA_WHO_AM_I_LEGACY (regs P)) 1 w1 = (ack2, inqbuf, w2) ->
  (readFn (mpuConfiguration (gyro (final (mpuDetect P s))))
     = Some ptr_mpuReadRegisterI2C /\
   writeFn (mpuConfiguration (gyro (final (mpuDetect P s))))
     = Some ptr_mpuWriteRegisterI2C) /\
  exists tail,
    trace (final (mpuDetect P s)) = trace s ++ probeCalls P ++ tail /\
    (tail = [] \/
     tail = [EvI2cRead MPU_ADDRESS (MPU_RA_XA_OFFS_H (regs P)) 6] \/
     tail = [EvI2cRead MPU_ADDRESS (MPU_RA_XA_OFFS_H (regs P)) 6;
             EvI2cRead MPU_ADDRESS (MPU_RA_PRODUCT_ID (regs P)) 1]).
Proof.
  intros Hi2c Hsig Hinq.
  rewrite (mpuDetect_primary P s sigbuf w1 ack2 inqbuf w2 Hi2c Hsig Hinq).
  assert (Hplain : forall t : machine World,
             trace t = trace s ++ probeCalls P ->
             exists tail, trace t = trace s ++ probeCalls P ++ tail /\
               (tail = [] \/
                tail = [EvI2cRead MPU_ADDRESS (MPU_RA_XA_OFFS_H (regs P)) 6] \/
                tail = [EvI2cRead MPU_ADDRESS (MPU_RA_XA_OFFS_H (regs P)) 6;
                        EvI2cRead MPU_ADDRESS (MPU_RA_PRODUCT_ID (regs P)) 1])).
  { intros t Ht. exists []. rewrite app_nil_r. split; [exact Ht | left; reflexivity]. }
  destruct (ack2 && _).
  { split; [split; reflexivity |]. apply Hplain. reflexivity. }
  destruct (_ =? MPUx0x0_WHO_AM_I_CONST).
  - set (s3 := upd_gyro (gyro_upd_detectionResult (res_set_sensor MPU_60x0))
                 (afterProbes P s w2)).
    destruct (mpu6050FindRevision_frame P s3 ptr_mpuReadRegisterI2C eq_refl)
      as (Hcfg & _ & tail & Htrace & Htail).
    rewrite Hcfg. split; [split; reflexivity |].
    exists (EvI2cRead MPU_ADDRESS (MPU_RA_XA_OFFS_H (regs P)) 6 :: tail).
    split.
    + rewrite Htrace. cbn [s3 trace upd_gyro afterProbes readEvent].
      rewrite <- app_assoc. reflexivity.
    + destruct Htail as [-> | ->]; [right; left | right; right]; reflexivity.
  - destruct (_ =? MPU6500_WHO_AM_I_CONST);
      (split; [split; reflexivity |]; apply Hplain; reflexivity).
Qed.

(** X10.  Once the identity probe on I2C is acknowledged, [mpuDetect]
    never calls an SPI probe: after the settle delay and the two
    identity reads it makes no call, or the revision burst, or the
    revision burst and the product-identifier read.  However the run
    ends, the I2C read and write functions are installed. *)
Theorem mpuDetect_primary_stays_on_i2c {World} (P : Platform World)
    (s : machine World) (sigbuf : list byte) (w1 : World) :
  USE_I2C (build P) = true ->
  i2cRead P MPU_ADDRESS (MPU_RA_WHO_AM_I (regs P)) 1 (delay_fn P 35 (world s))
    = (true, sigbuf, w1) ->
  let s' := final (mpuDetect P s) in
  readFn (mpuConfiguration (gyro s')) = Some ptr_mpuReadRegisterI2C /\
  writeFn (mpuConfiguration (gyro s')) = Some ptr_mpuWriteRegisterI2C /\
  exists tail,
    trace s' = trace s ++ probeCalls P ++ tail /\
    (tail = [] \/
     tail = [EvI2cRead MPU_ADDRESS (MPU_RA_XA_OFFS_H (regs P)) 6] \/
     tail = [EvI2cRead MPU_ADDRESS (MPU_RA_XA_OFFS_H (regs P)) 6;
             EvI2cRead MPU_ADDRESS (MPU_RA_PRODUCT_ID (regs P)) 1]).
Proof.
  intros Hi2c Hsig s'. subst s'.
  destruct (i2cRead P MPU_ADDRESS (MPU_RA_WHO_AM_I_LEGACY (regs P)) 1 w1)
    as [[ack2 inqbuf] w2] eqn:Hinq.
  destruct (mpuDetect_primary_tail P s sigbuf w1 ack2 inqbuf w2 Hi2c Hsig Hinq)
    as ((Hread & Hwrite) & Htail).
  split; [exact Hread |]. split; [exact Hwrite | exact Htail].
Qed.

(** On the bench: identity byte 0x68, a refused legacy read, a revision
    burst. *)
Lemma mpuDetect_primary_stays_on_i2c_witness :
  readFn (mpuConfiguration
            (gyro (final (mpuDetect Bench.platform (Bench.boot Bench.sixAxisWorld)))))
    = Some ptr_mpuReadRegisterI2C /\
  filter isSpiDetect
    (trace (final (mpuDetect Bench.platform (Bench.boot Bench.sixAxisWorld)))) = [].
Proof.
  destruct (mpuDetect_primary_stays_on_i2c Bench.platform (Bench.boot Bench.sixAxisWorld)
              [x68]
              {| Bench.reads := [(false, [x00]); (true, Bench.codeTwoBurst)];
                 Bench.probes := [] |}
              eq_refl eq_refl) as (Hread & _ & _).
  split; [exact Hread | reflexivity].
Defined.

(** X11.  Every run of [mpuDetect] starts with the 35 ms settle delay,
    before anything else is called.  What follows is I2C register reads
    and SPI probe calls only: no second delay, no client callback, no
    read through an SPI driver.  Without I2C compiled in no register is
    read at all; without SPI compiled in no probe is called. *)
Theorem mpuDetect_calls {World} (P : Platform World) (s : machine World) :
  exists tail,
    trace (final (mpuDetect P s)) = trace s ++ EvDelay 35 :: tail /\
    forallb (fun e => isI2cRead e || isSpiDetect e) tail = true /\
    (USE_I2C (build P) = false -> forallb isSpiDetect tail = true) /\
    (USE_SPI (build P) = false -> forallb isI2cRead tail = true).
Proof.
  destruct (mpuDetect_paths P s)
    as [Hsilent | (sigbuf & w1 & ack2 & inqbuf & w2 & Hi2c & Hsig & Hinq)].
  - rewrite (mpuDetect_silent P s Hsilent).
    pose proof (afterIdentity_trace P s) as Hid.
    destruct (USE_SPI (build P)) eqn:Hspi; cbn [final].
    + destruct (spiScan_calls P (enabledProbes (build P)) (afterIdentity P s))
        as (tried & rest & _ & Htrace & _).
      rewrite Htrace, Hid, <- app_assoc. cbn [app].
      eexists. split; [reflexivity |].
      pose proof (forallb_map_EvSpiDetect tried) as Hprobes.
      assert (Hmixed : forallb (fun e => isI2cRead e || isSpiDetect e)
                         (map EvSpiDetect tried) = true).
      { clear -tried. induction tried as [| p tried IH]; [reflexivity | exact IH]. }
      destruct (USE_I2C (build P)); cbn [app forallb isI2cRead isSpiDetect orb andb].
      * split; [exact Hmixed |]. split; intros H; discriminate H.
      * split; [exact Hmixed |]. split; [intros _; exact Hprobes |].
        intros H; discriminate H.
    + rewrite Hid. eexists. split; [reflexivity |].
      destruct (USE_I2C (build P)); repeat split; intros H; discriminate H.
  - destruct (mpuDetect_primary_tail P s sigbuf w1 ack2 inqbuf w2 Hi2c Hsig Hinq)
      as (_ & tail & Htrace & Htail).
    rewrite Htrace. unfold probeCalls. cbn [app].
    eexists. split; [reflexivity |].
    cbn [forallb isI2cRead isSpiDetect orb andb].
    split; [| split].
    + destruct Htail as [-> | [-> | ->]]; reflexivity.
    + intros H. rewrite Hi2c in H. discriminate H.
    + intros _. destruct Htail as [-> | [-> | ->]]; reflexivity.
Qed.

(* ================================================================== *)
(** ** Samples *)

Lemma u8_byte_of_Z (v : Z) : u8 (byte_of_Z v) = v mod 256.
Proof.
  unfold byte_of_Z, u8.
  pose proof (Z.mod_pos_bound v 256 ltac:(lia)) as Hrange.
  pose proof (Byte.to_of_N_option_map (Z.to_N (v mod 256))) as Hmap.
  assert (Hle : N.leb (Z.to_N (v mod 256)) 255 = true) by (apply N.leb_le; lia).
  rewrite Hle in Hmap.
  destruct (Byte.of_N (Z.to_N (v mod 256))) as [b |]; [| discriminate Hmap].
  cbn [option_map] in Hmap. injection Hmap as ->. lia.
Qed.

Lemma byte_of_Z_u8 (b : byte) (v : Z) : v mod 256 = u8 b -> byte_of_Z v = b.
Proof.
  intros Hv. unfold byte_of_Z. rewrite Hv. unfold u8.
  rewrite N2Z.id, Byte.of_to_N. reflexivity.
Qed.

(** Sending a 16-bit value high byte first and decoding it gives the
    value back. *)
Lemma spec_int16_be_wire (v : Z) :
  -32768 <= v < 32768 ->
  spec_int16_be (u8 (byte_of_Z (v / 256))) (u8 (byte_of_Z v)) = v.
Proof.
  intros Hv. rewrite !u8_byte_of_Z. unfold spec_int16_be. cbv zeta.
  assert (Hhi : (v / 256) mod 256 = if v <? 0 then v / 256 + 256 else v / 256).
  { destruct (Z.ltb_spec v 0).
    - symmetry. apply (Z.mod_unique _ _ (-1)); [left |]; 
        pose proof (Z.div_le_mono (-32768) v 256 ltac:(lia) ltac:(lia)) as Hlo;
        pose proof (Z.div_lt_upper_bound v 256 0 ltac:(lia) ltac:(lia)) as Hup;
        change (-32768 / 256) with (-128) in Hlo; lia.
    - apply Z.mod_small.
      pose proof (Z.div_pos v 256 ltac:(lia) ltac:(lia)).
      pose proof (Z.div_lt_upper_bound v 256 128 ltac:(lia) ltac:(lia)). lia. }
  rewrite Hhi.
  pose proof (Z.div_mod v 256 ltac:(lia)) as Hdm.
  pose proof (Z.mod_pos_bound v 256 ltac:(lia)) as Hlo.
  destruct (Z.ltb_spec v 0);
    match goal with |- context [?u <? 32768] => destruct (Z.ltb_spec u 32768) end; lia.
Qed.

(** Decoding two bytes and sending the value gives the bytes back. *)
Lemma wire_spec_int16_be (hi lo : byte) :
  byte_of_Z (spec_int16_be (u8 hi) (u8 lo) / 256) = hi /\
  byte_of_Z (spec_int16_be (u8 hi) (u8 lo)) = lo.
Proof.
  pose proof (u8_range hi) as Hhi. pose proof (u8_range lo) as Hlo.
  unfold spec_int16_be. cbv zeta.
  destruct (Z.ltb_spec (256 * u8 hi + u8 lo) 32768).
  - split; apply byte_of_Z_u8.
    + replace ((256 * u8 hi + u8 lo) / 256) with (u8 hi).
      * apply Z.mod_small; lia.
      * apply (Z.div_unique_pos _ _ _ (u8 lo)); lia.
    + symmetry. apply (Z.mod_unique_pos _ _ (u8 hi)); lia.
  - split; apply byte_of_Z_u8.
    + replace ((256 * u8 hi + u8 lo - 65536) / 256) with (u8 hi - 256).
      * symmetry. apply (Z.mod_unique_pos _ _ (-1)); lia.
      * apply (Z.div_unique_pos _ _ _ (u8 lo)); lia.
    + symmetry. apply (Z.mod_unique_pos _ _ (u8 hi - 256)); lia.
Qed.

Lemma spec_decode_wire (v : int16x3) : int16Sample v -> spec_decode (wire v) = v.
Proof.
  intros (Hx & Hy & Hz). destruct v as [x y z]. cbn [atX atY atZ] in *.
  unfold spec_decode, wire, cell. cbn [nth atX atY atZ].
  rewrite !spec_int16_be_wire by assumption. reflexivity.
Qed.

Lemma spec_decode_int16 (data : list byte) : int16Sample (spec_decode data).
Proof.
  unfold int16Sample, spec_decode. cbn [atX atY atZ].
  repeat split; apply spec_int16_be_range; apply cell_range.
Qed.

(** X12.  Whenever [mpuGyroRead] or [mpuAccRead] returns [true], each of
    the three samples it has stored is an [int16_t] value, between
    -32768 and 32767. *)
Theorem read_stores_int16 {World} (P : Platform World) (s s' : machine World) :
  (mpuGyroRead P s = Done true s' -> int16Sample (gyroADCRaw (gyro s'))) /\
  (mpuAccRead P s = Done true s' -> int16Sample (ADCRaw (acc s'))).
Proof.
  split; intros Hrun.
  - destruct (readFn (mpuConfiguration (gyro s))) as [f |] eqn:Hf.
    + destruct (readOracle P f (gyroReadXRegister (mpuConfiguration (gyro s))) 6 (world s))
        as [[ack data] w] eqn:Hread.
      rewrite (mpuGyroRead_run P s f ack data w Hf Hread) in Hrun. cbv zeta in Hrun.
      destruct ack; [| discriminate Hrun].
      injection Hrun as <-. apply spec_decode_int16.
    + unfold mpuGyroRead in Hrun. rewrite bind_getGyro in Hrun. unfold bind in Hrun.
      rewrite Hf in Hrun. discriminate Hrun.
  - destruct (readFn (acc_mpuConfiguration (acc s))) as [f |] eqn:Hf.
    + destruct (readOracle P f (MPU_RA_ACCEL_XOUT_H (regs P)) 6 (world s))
        as [[ack data] w] eqn:Hread.
      rewrite (mpuAccRead_run P s f ack data w Hf Hread) in Hrun. cbv zeta in Hrun.
      destruct ack; [| discriminate Hrun].
      injection Hrun as <-. apply spec_decode_int16.
    + unfold mpuAccRead in Hrun. rewrite bind_getAcc in Hrun. unfold bind in Hrun.
      rewrite Hf in Hrun. discriminate Hrun.
Qed.

(** On the bench: the burst [ff fe 00 01 80 00], whose Z sample is the
    least [int16_t] value. *)
Lemma read_stores_int16_witness :
  int16Sample (gyroADCRaw
    (gyro (final (mpuGyroRead Bench.platform (Bench.running Bench.sampleWorld))))) /\
  int16Sample (ADCRaw
    (acc (final (mpuAccRead Bench.platform (Bench.running Bench.sampleWorld))))).
Proof.
  split.
  - exact (proj1 (read_stores_int16 Bench.platform (Bench.running Bench.sampleWorld)
                    (final (mpuGyroRead Bench.platform (Bench.running Bench.sampleWorld))))
                 eq_refl).
  - exact (proj2 (read_stores_int16 Bench.platform (Bench.running Bench.sampleWorld)
                    (final (mpuAccRead Bench.platform (Bench.running Bench.sampleWorld))))
                 eq_refl).
Defined.

(** X13.  The decoding loses nothing and reaches every sample.  When the
    acknowledged burst is an [int16_t] sample in two's complement, high
    byte first, [mpuGyroRead] and [mpuAccRead] store that very sample;
    and from the sample either of them has stored, the six bytes of the
    burst can be told again. *)
Theorem read_wire_round_trip {World} (P : Platform World) (s : machine World) :
  (forall f v w,
     int16Sample v ->
     readFn (mpuConfiguration (gyro s)) = Some f ->
     readOracle P f (gyroReadXRegister (mpuConfiguration (gyro s))) 6 (world s)
       = (true, wire v, w) ->
     gyroADCRaw (gyro (final (mpuGyroRead P s))) = v) /\
  (forall f v w,
     int16Sample v ->
     readFn (acc_mpuConfiguration (acc s)) = Some f ->
     readOracle P f (MPU_RA_ACCEL_XOUT_H (regs P)) 6 (world s) = (true, wire v, w) ->
     ADCRaw (acc (final (mpuAccRead P s))) = v) /\
  (forall f data w,
     length data = 6%nat ->
     readFn (mpuConfiguration (gyro s)) = Some f ->
     readOracle P f (gyroReadXRegister (mpuConfiguration (gyro s))) 6 (world s)
       = (true, data, w) ->
     wire (gyroADCRaw (gyro (final (mpuGyroRead P s)))) = data) /\
  (forall f data w,
     length data = 6%nat ->
     readFn (acc_mpuConfiguration (acc s)) = Some f ->
     readOracle P f (MPU_RA_ACCEL_XOUT_H (regs P)) 6 (world s) = (true, data, w) ->
     wire (ADCRaw (acc (final (mpuAccRead P s)))) = data).
Proof.
  assert (Hback : forall data : list byte,
             length data = 6%nat -> wire (spec_decode data) = data).
  { intros data Hlen.
    destruct data as [| b0 [| b1 [| b2 [| b3 [| b4 [| b5 [| b6 rest]]]]]]];
      try discriminate Hlen.
    unfold wire, spec_decode, cell. cbn [nth atX atY atZ].
    destruct (wire_spec_int16_be b0 b1) as [-> ->].
    destruct (wire_spec_int16_be b2 b3) as [-> ->].
    destruct (wire_spec_int16_be b4 b5) as [-> ->].
    reflexivity. }
  repeat split.
  - intros f v w Hv Hf Hread.
    rewrite (mpuGyroRead_run P s f true (wire v) w Hf Hread). cbv zeta.
    cbn [final gyro upd_gyro gyroADCRaw gyro_upd_gyroADCRaw].
    apply spec_decode_wire. exact Hv.
  - intros f v w Hv Hf Hread.
    rewrite (mpuAccRead_run P s f true (wire v) w Hf Hread). cbv zeta.
    cbn [final acc upd_acc ADCRaw acc_upd_ADCRaw].
    apply spec_decode_wire. exact Hv.
  - intros f data w Hlen Hf Hread.
    rewrite (mpuGyroRead_run P s f true data w Hf Hread). cbv zeta.
    cbn [final gyro upd_gyro gyroADCRaw gyro_upd_gyroADCRaw].
    apply Hback. exact Hlen.
  - intros f data w Hlen Hf Hread.
    rewrite (mpuAccRead_run P s f true data w Hf Hread). cbv zeta.
    cbn [final acc upd_acc ADCRaw acc_upd_ADCRaw].
    apply Hback. exact Hlen.
Qed.

(** On the bench: the sample [(-2, 1, -32768)] goes out as
    [ff fe 00 01 80 00] and is read back. *)
Lemma read_wire_round_trip_witness :
  wire {| atX := -2; atY := 1; atZ := -32768 |} = Bench.sampleBurst /\
  gyroADCRaw (gyro (final (mpuGyroRead Bench.platform (Bench.running Bench.sampleWorld))))
    = {| atX := -2; atY := 1; atZ := -32768 |} /\
  wire (ADCRaw (acc (final (mpuAccRead Bench.platform (Bench.running Bench.sampleWorld)))))
    = Bench.sampleBurst.
Proof.
  destruct (read_wire_round_trip Bench.platform (Bench.running Bench.sampleWorld))
    as (Hg & _ & _ & Ha).
  split; [reflexivity | split].
  - apply (Hg ptr_mpuReadRegisterI2C {| atX := -2; atY := 1; atZ := -32768 |} Bench.quiet).
    + unfold int16Sample. cbn [atX atY atZ]. lia.
    + reflexivity.
    + reflexivity.
  - apply (Ha ptr_mpuReadRegisterI2C Bench.sampleBurst Bench.quiet); reflexivity.
Defined.

(** X14.  A read touches nothing but its own samples.  However
    [mpuGyroRead] ends, the dispatch table, the detection result, the
    data-ready latch, the callback and the accelerometer device are as
    before; however [mpuAccRead] ends, the gyro device and the
    accelerometer's dispatch table are as before.  Each makes at most
    one external call, a register read. *)
Theorem reads_touch_only_samples {World} (P : Platform World) (s : machine World) :
  (mpuConfiguration (gyro (final (mpuGyroRead P s))) = mpuConfiguration (gyro s) /\
   mpuDetectionResult (gyro (final (mpuGyroRead P s))) = mpuDetectionResult (gyro s) /\
   dataReady (gyro (final (mpuGyroRead P s))) = dataReady (gyro s) /\
   update (gyro (final (mpuGyroRead P s))) = update (gyro s) /\
   acc (final (mpuGyroRead P s)) = acc s /\
   exists calls, trace (final (mpuGyroRead P s)) = trace s ++ calls /\
                 (length calls <= 1)%nat /\ forallb isRegisterRead calls = true) /\
  (gyro (final (mpuAccRead P s)) = gyro s /\
   acc_mpuConfiguration (acc (final (mpuAccRead P s))) = acc_mpuConfiguration (acc s) /\
   exists calls, trace (final (mpuAccRead P s)) = trace s ++ calls /\
                 (length calls <= 1)%nat /\ forallb isRegisterRead calls = true).
Proof.
  split.
  - destruct (readFn (mpuConfiguration (gyro s))) as [f |] eqn:Hf.
    + destruct (readOracle P f (gyroReadXRegister (mpuConfiguration (gyro s))) 6 (world s))
        as [[ack data] w] eqn:Hread.
      rewrite (mpuGyroRead_run P s f ack data w Hf Hread). cbv zeta.
      destruct ack; cbn [final]; repeat split;
        (eexists; split; [reflexivity |]; split; [cbn [length]; lia |]);
        cbn [forallb]; rewrite readEvent_isRegisterRead; reflexivity.
    + unfold mpuGyroRead. rewrite bind_getGyro. unfold bind. rewrite Hf.
      cbn [callReadFn final]. repeat split.
      exists []. rewrite app_nil_r. repeat split. cbn [length]. lia.
  - destruct (readFn (acc_mpuConfiguration (acc s))) as [f |] eqn:Hf.
    + destruct (readOracle P f (MPU_RA_ACCEL_XOUT_H (regs P)) 6 (world s))
        as [[ack data] w] eqn:Hread.
      rewrite (mpuAccRead_run P s f ack data w Hf Hread). cbv zeta.
      destruct ack; cbn [final]; repeat split;
        (eexists; split; [reflexivity |]; split; [cbn [length]; lia |]);
        cbn [forallb]; rewrite readEvent_isRegisterRead; reflexivity.
    + unfold mpuAccRead. rewrite bind_getAcc. unfold bind. rewrite Hf.
      cbn [callReadFn final]. repeat split.
      exists []. rewrite app_nil_r. repeat split. cbn [length]. lia.
Qed.

(* ================================================================== *)
(** ** More on the latch and the callback *)

Lemma spec_latch_trues (ready : bool) (ops : list latchOp) :
  (trues (spec_latch ready ops) <= edges ops + (if ready then 1 else 0))%nat.
Proof.
  revert ready. induction ops as [| op ops IH]; intros ready.
  - cbn. lia.
  - destruct op; cbn [spec_latch].
    + specialize (IH true). unfold edges in *. cbn [filter isEdge length]. lia.
    + specialize (IH false). unfold edges, trues in *.
      cbn [filter isEdge]. destruct ready; cbn [filter length]; lia.
Qed.

Lemma spec_latch_length (ready : bool) (ops : list latchOp) :
  (length (spec_latch ready ops) + edges ops = length ops)%nat.
Proof.
  revert ready. induction ops as [| op ops IH]; intros ready; [reflexivity |].
  destruct op; cbn [spec_latch]; unfold edges in *; cbn [filter isEdge length].
  - specialize (IH true). lia.
  - specialize (IH false). lia.
Qed.

(** X15.  When no callback meddles with the latch, the polls of a run
    answer [true] at most once per edge: in any interleaving of edges
    and polls, the number of [true] answers is at most the number of
    edges, plus one if the latch was set to begin with.  Every poll
    answers. *)
Theorem polls_true_at_most_once_per_edge {World} (P : Platform World)
    (s : machine World) (ops : list latchOp) :
  latchLeftAlone P s ->
  exists bs s',
    latchRun P ops s = Done bs s' /\
    (trues bs <= edges ops + (if dataReady (gyro s) then 1 else 0))%nat /\
    (length bs + edges ops = length ops)%nat.
Proof.
  intros Halone.
  destruct (latchRun_refines_spec P ops s Halone) as (s' & Hrun & _).
  exists (spec_latch (dataReady (gyro s)) ops), s'.
  split; [exact Hrun |]. split; [apply spec_latch_trues | apply spec_latch_length].
Qed.

(** On the bench, with no callback: three edges, two of them back to
    back, and three polls; two polls answer [true]. *)
Lemma polls_true_at_most_once_per_edge_witness :
  exists s',
    latchRun Bench.platform [Edge; Edge; Poll; Poll; Edge; Poll]
      (Bench.running Bench.quiet)
    = Done [true; false; true] s'.
Proof.
  destruct (polls_true_at_most_once_per_edge Bench.platform (Bench.running Bench.quiet)
              [Edge; Edge; Poll; Poll; Edge; Poll] (or_introl eq_refl))
    as (bs & s' & Hrun & _).
  exists s'. rewrite Hrun. f_equal.
  assert (Hbs : Done bs s' = latchRun Bench.platform [Edge; Edge; Poll; Poll; Edge; Poll]
                               (Bench.running Bench.quiet)) by (symmetry; exact Hrun).
  injection Hbs as -> _. reflexivity.
Defined.

(** X16.  Once the callback has been taken out with
    [mpuGyroSetIsrUpdate], whatever was installed before, a run of edges
    and polls makes no external call at all and changes nothing but the
    latch: the polls answer as the two-state latch does, and at the end
    only the latch and the emptied callback differ from the start. *)
Theorem latch_run_without_callback {World} (P : Platform World)
    (s : machine World) (ops : list latchOp) :
  bind (mpuGyroSetIsrUpdate None) (fun _ => latchRun P ops) s
  = Done (spec_latch (dataReady (gyro s)) ops)
         (upd_gyro (fun g => gyro_set_dataReady (spec_latchState (dataReady g) ops)
                               (gyro_set_update None g)) s).
Proof.
  assert (Hgen : forall (l : list latchOp) (b : bool),
    latchRun P l (upd_gyro (fun g => gyro_set_dataReady b (gyro_set_update None g)) s)
    = Done (spec_latch b l)
           (upd_gyro (fun g => gyro_set_dataReady (spec_latchState b l)
                                 (gyro_set_update None g)) s)).
  { induction l as [| op l IH]; intros b; [reflexivity |].
    destruct op; cbn [latchRun spec_latch spec_latchState].
    - unfold bind. rewrite mpuIntExtiHandler_run.
      cbn [update gyro upd_gyro gyro_set_dataReady gyro_set_update].
      exact (IH true).
    - unfold bind at 1. rewrite mpuCheckDataReady_run.
      cbn [dataReady gyro upd_gyro gyro_set_dataReady].
      destruct b.
      + change (upd_gyro (gyro_set_dataReady false)
                  (upd_gyro (fun g => gyro_set_dataReady true (gyro_set_update None g)) s))
          with (upd_gyro (fun g => gyro_set_dataReady false (gyro_set_update None g)) s).
        unfold bind. rewrite (IH false). reflexivity.
      + unfold bind. rewrite (IH false). reflexivity. }
  unfold bind, mpuGyroSetIsrUpdate, modifyGyro. exact (Hgen ops (dataReady (gyro s))).
Qed.

(** With callback [cb] installed, and [cb] leaving the callback field
    alone, each edge of a run calls [cb] once and nothing else is
    called. *)
Lemma latchRun_calls_callback {World} (P : Platform World)
    (cb : sensorGyroUpdateFuncPtr) (ops : list latchOp) (s : machine World) :
  (forall g w, update (fst (clientUpdate P cb g w)) = update g) ->
  update (gyro s) = Some cb ->
  exists bs s',
    latchRun P ops s = Done bs s' /\
    trace s' = trace s ++ repeat (EvUpdate cb) (edges ops) /\
    update (gyro s') = Some cb /\ acc s' = acc s.
Proof.
  intros Hkeep. revert s. induction ops as [| op ops IH]; intros s Hupd.
  - exists [], s. cbn [latchRun edges filter length repeat]. rewrite app_nil_r.
    repeat split. exact Hupd.
  - destruct op; cbn [latchRun].
    + unfold bind. rewrite mpuIntExtiHandler_run, Hupd. unfold callUpdate.
      pose proof (Hkeep (gyro (upd_gyro (gyro_set_dataReady true) s))
                        (world (upd_gyro (gyro_set_dataReady true) s))) as Hcb.
      destruct (clientUpdate P cb _ _) as [g w]. cbn [fst] in Hcb.
      destruct (IH (advance w (EvUpdate cb)
                      (upd_gyro (fun _ => g) (upd_gyro (gyro_set_dataReady true) s))))
        as (bs & s' & Hrun & Htrace & Hupd' & Hacc).
      { cbn [gyro advance upd_gyro]. rewrite Hcb. exact Hupd. }
      exists bs, s'. rewrite Hrun, Htrace, Hupd', Hacc.
      unfold edges. cbn [filter isEdge length repeat trace advance upd_gyro acc].
      rewrite <- app_assoc. repeat split.
    + unfold bind at 1. rewrite mpuCheckDataReady_run.
      destruct (dataReady (gyro s)).
      * destruct (IH (upd_gyro (gyro_set_dataReady false) s) Hupd)
          as (bs & s' & Hrun & Htrace & Hupd' & Hacc).
        unfold bind. rewrite Hrun. exists (true :: bs), s'.
        rewrite Htrace, Hupd', Hacc. repeat split.
      * destruct (IH s Hupd) as (bs & s' & Hrun & Htrace & Hupd' & Hacc).
        unfold bind. rewrite Hrun. exists (false :: bs), s'.
        rewrite Htrace, Hupd', Hacc. repeat split.
Qed.

(** X17.  Once [mpuGyroSetIsrUpdate] has installed callback [cb], and
    provided [cb] does not replace the callback itself, a run of edges
    and polls calls [cb] once for every edge, in the interrupt, and
    makes no other external call.  Unlike the polls, the callback is not
    held back when the latch is already set. *)
Theorem callback_runs_on_every_edge {World} (P : Platform World)
    (cb : sensorGyroUpdateFuncPtr) (s : machine World) (ops : list latchOp) :
  (forall g w, update (fst (clientUpdate P cb g w)) = update g) ->
  exists bs s',
    bind (mpuGyroSetIsrUpdate (Some cb)) (fun _ => latchRun P ops) s = Done bs s' /\
    trace s' = trace s ++ repeat (EvUpdate cb) (edges ops) /\
    update (gyro s') = Some cb.
Proof.
  intros Hkeep. unfold bind, mpuGyroSetIsrUpdate, modifyGyro.
  destruct (latchRun_calls_callback P cb ops
              (upd_gyro (gyro_set_update (Some cb)) s) Hkeep eq_refl)
    as (bs & s' & Hrun & Htrace & Hupd & _).
  exists bs, s'. split; [exact Hrun |]. split; [exact Htrace | exact Hupd].
Qed.

(** On the bench, with the callback that stores a sample: two edges
    back to back and one poll; the callback runs twice, the poll
    answers [true] once. *)
Lemma callback_runs_on_every_edge_witness :
  exists s',
    bind (mpuGyroSetIsrUpdate (Some 1%nat))
         (fun _ => latchRun Bench.platform [Edge; Edge; Poll; Poll])
         (Bench.running Bench.quiet)
    = Done [true; false] s' /\
    trace s' = [EvUpdate 1%nat; EvUpdate 1%nat].
Proof.
  destruct (callback_runs_on_every_edge Bench.platform 1%nat
              (Bench.running Bench.quiet) [Edge; Edge; Poll; Poll])
    as (bs & s' & Hrun & Htrace & _).
  - intros g w. reflexivity.
  - exists s'. split; [| exact Htrace].
    assert (Hbs : Done bs s'
                  = bind (mpuGyroSetIsrUpdate (Some 1%nat))
                         (fun _ => latchRun Bench.platform [Edge; Edge; Poll; Poll])
                         (Bench.running Bench.quiet)) by (symmetry; exact Hrun).
    injection Hbs as -> ->. reflexivity.
Defined.

(* ================================================================== *)
(** ** More on the revision and the identity byte *)

(** X18.  Whatever the registers hold and however it ends,
    [mpu6050FindRevision] leaves everything of the devices but the
    resolution alone: dispatch table, variant, latch, callback, samples
    and accelerometer.  When it stops short of returning, the resolution
    too is what it was.  It makes at most two external calls, both
    register reads. *)
Theorem mpu6050FindRevision_writes_only_resolution {World} (P : Platform World)
    (s : machine World) :
  mpuConfiguration (gyro (final (mpu6050FindRevision P s))) = mpuConfiguration (gyro s) /\
  sensor (mpuDetectionResult (gyro (final (mpu6050FindRevision P s))))
    = sensor (mpuDetectionResult (gyro s)) /\
  detectFrame s (final (mpu6050FindRevision P s)) /\
  (forall h t, mpu6050FindRevision P s = Halted h t -> gyro t = gyro s) /\
  exists calls,
    trace (final (mpu6050FindRevision P s)) = trace s ++ calls /\
    (length calls <= 2)%nat /\ forallb isRegisterRead calls = true.
Proof.
  destruct (mpu6050FindRevision_keeps P s) as (Hcfg & Hsensor & Hframe & Hhalt).
  split; [exact Hcfg |]. split; [exact Hsensor |]. split; [exact Hframe |].
  split; [exact Hhalt |].
  destruct (readFn (mpuConfiguration (gyro s))) as [f |] eqn:Hf.
  - destruct (mpu6050FindRevision_frame P s f Hf) as (_ & _ & tail & Htrace & Htail).
    exists (readEvent f (MPU_RA_XA_OFFS_H (regs P)) 6 :: tail).
    split; [exact Htrace |].
    destruct Htail as [-> | ->]; cbn [length forallb];
      rewrite ?readEvent_isRegisterRead; split; [lia | reflexivity | lia | reflexivity].
  - rewrite (mpu6050FindRevision_null P s Hf). exists []. cbn [final length forallb].
    rewrite app_nil_r. repeat split. lia.
Qed.

(** X19.  Which identity bytes [mpuDetect] takes for which part, once
    the identity probe on I2C is acknowledged and the legacy probe has
    not made the device an MPU-3050: bits 0 and 7 of the byte are not
    looked at.  The bytes 0x68, 0x69, 0xE8, 0xE9 lead to the revision
    classification of the six-axis part; 0x70, 0x71, 0xF0, 0xF1 make the
    device an [MPU_65xx_I2C]; every other byte leaves the variant as it
    was. *)
Theorem mpuDetect_by_identity_byte {World} (P : Platform World) (s : machine World)
    (b : byte) (sigrest : list byte) (w1 : World)
    (ack2 : bool) (inqbuf : list byte) (w2 : World) :
  USE_I2C (build P) = true ->
  i2cRead P MPU_ADDRESS (MPU_RA_WHO_AM_I (regs P)) 1 (delay_fn P 35 (world s))
    = (true, b :: sigrest, w1) ->
  i2cRead P MPU_ADDRESS (MPU_RA_WHO_AM_I_LEGACY (regs P)) 1 w1 = (ack2, inqbuf, w2) ->
  ack2 && (Z.land (cell inqbuf 0) MPU_INQUIRY_MASK =? MPUx0x0_WHO_AM_I_CONST) = false ->
  mpuDetect P s
  = if existsb (Byte.eqb b) [x68; x69; xe8; xe9]
    then mpu6050FindRevision P
           (upd_gyro (gyro_upd_detectionResult (res_set_sensor MPU_60x0))
              (afterProbes P s w2))
    else if existsb (Byte.eqb b) [x70; x71; xf0; xf1]
    then Done tt (upd_gyro (gyro_upd_detectionResult (res_set_sensor MPU_65xx_I2C))
                    (afterProbes P s w2))
    else Done tt (afterProbes P s w2).
Proof.
  intros Hi2c Hsig Hinq Hlegacy.
  rewrite (mpuDetect_primary P s (b :: sigrest) w1 ack2 inqbuf w2 Hi2c Hsig Hinq).
  rewrite Hlegacy. unfold cell. cbn [nth].
  generalize (mpu6050FindRevision P
                (upd_gyro (gyro_upd_detectionResult (res_set_sensor MPU_60x0))
                   (afterProbes P s w2))).
  generalize (upd_gyro (gyro_upd_detectionResult (res_set_sensor MPU_65xx_I2C))
                (afterProbes P s w2)).
  generalize (afterProbes P s w2).
  intros t0 t1 o. destruct b; reflexivity.
Qed.

(** On the bench: identity byte 0xE9, a refused legacy read, a revision
    burst with code 2. *)
Lemma mpuDetect_by_identity_byte_witness :
  sensor (mpuDetectionResult
    (gyro (final (mpuDetect Bench.platform
       (Bench.boot {| Bench.reads := [(true, [xe9]); (false, [x00]);
                                      (true, Bench.codeTwoBurst)];
                      Bench.probes := [] |}))))) = MPU_60x0.
Proof.
  rewrite (mpuDetect_by_identity_byte Bench.platform
             (Bench.boot {| Bench.reads := [(true, [xe9]); (false, [x00]);
                                            (true, Bench.codeTwoBurst)];
                            Bench.probes := [] |})
             xe9 []
             {| Bench.reads := [(false, [x00]); (true, Bench.codeTwoBurst)];
                Bench.probes := [] |}
             false [x00] Bench.revisionWorld eq_refl eq_refl eq_refl eq_refl).
  reflexivity.
Defined.
